(** * A shallow embedding of the plan-execute-observe agent

    The development follows the Python sources:
    - [app/promt/planning.py]   : the [Planning] step plan;
    - [app/utils/tools.py]      : conversion of tool descriptors;
    - [app/mcp/gaode_mcp.py]    : the tool-session client with its dispatch guard;
    - [app/llm/client.py]       : the model caller;
    - [app/agent/MCPAgent.py]   : the reasoning loop [MCPAgent.run].

    Python [str] values are sequences of Unicode code points, so a string is a
    list of code points here; literals are written as UTF-8 text and decoded. *)

From Stdlib Require Import ZArith NArith QArith Lia Ascii String List.
From stdpp Require Import base list.

Set Warnings "-register-all".
Local Open Scope N_scope.

(** ** Python strings *)

Definition str := list N.

(** Decoding of the UTF-8 bytes of a literal into code points: [acc] holds the
    bits read so far of a multi-byte sequence, [need] the continuation bytes
    still expected. *)
Fixpoint utf8_decode (bs : list N) (acc : N) (need : nat) : str :=
  match bs with
  | [] => []
  | b :: bs' =>
      match need with
      | O =>
          if b <? 128 then b :: utf8_decode bs' 0 O
          else if b <? 224 then utf8_decode bs' (N.land b 31) 1%nat
          else if b <? 240 then utf8_decode bs' (N.land b 15) 2%nat
          else utf8_decode bs' (N.land b 7) 3%nat
      | S O => (acc * 64 + N.land b 63) :: utf8_decode bs' 0 O
      | S n => utf8_decode bs' (acc * 64 + N.land b 63) n
      end
  end.

Definition utf8 (s : string) : str :=
  utf8_decode (map N_of_ascii (list_ascii_of_string s)) 0 O.

Arguments utf8 s%_string.

(** The newline character, written ["\n"] in the sources. *)
Definition LF : N := 10.

(** [str.isspace] on one character: the code points Python treats as
    whitespace, which are the ones [str.strip()] removes. *)
Definition isspace (c : N) : bool :=
  ((9 <=? c) && (c <=? 13)) || ((28 <=? c) && (c <=? 32))
  || (c =? 133) || (c =? 160) || (c =? 5760)
  || ((8192 <=? c) && (c <=? 8202))
  || (c =? 8232) || (c =? 8233) || (c =? 8239) || (c =? 8287) || (c =? 12288).

(** [s.lstrip], [s.rstrip] and [s.strip] for a set of characters given by its
    membership test. *)
Fixpoint lstrip_by (p : N -> bool) (s : str) : str :=
  match s with
  | [] => []
  | c :: s' => if p c then lstrip_by p s' else s
  end.

Definition rstrip_by (p : N -> bool) (s : str) : str :=
  rev (lstrip_by p (rev s)).

Definition strip_by (p : N -> bool) (s : str) : str :=
  rstrip_by p (lstrip_by p s).

(** [s.strip()] *)
Definition py_strip (s : str) : str := strip_by isspace s.

(** [s.strip(chars)] *)
Definition py_strip_chars (chars : str) (s : str) : str :=
  strip_by (fun c => existsb (N.eqb c) chars) s.

(** [s.split(sep)] for a separator of one code point: the pieces between the
    occurrences of [sep], always at least one piece. *)
Fixpoint py_split (sep : N) (s : str) : list str :=
  match s with
  | [] => [[]]
  | c :: s' =>
      if c =? sep then [] :: py_split sep s'
      else match py_split sep s' with
           | [] => [[c]]
           | w :: ws => (c :: w) :: ws
           end
  end.

(** Truth value of a string: non-empty. *)
Definition truthy (s : str) : bool :=
  match s with [] => false | _ => true end.

(** ** app/promt/planning.py *)

Module Planning.

Record t := mk {
  requirement : str;
  info_list : list str;
  plan_steps : list str;
  current_step_index : Z
}.

(** The step delimiter, the ideographic full stop U+3002. *)
Definition DELIM : N := 12290.

(** The characters of [" 。\n"], the argument of [strip] in
    [set_plan_steps_from_text]. *)
Definition STRIP_CHARS : str := [32; DELIM; LF].

Definition init (requirement : str) : t :=
  {| requirement := requirement;
     info_list := [];
     plan_steps := [];
     current_step_index := (-1)%Z |}.

Definition add_info (self : t) (info : str) : t :=
  {| requirement := requirement self;
     info_list := info_list self ++ [info];
     plan_steps := plan_steps self;
     current_step_index := current_step_index self |}.

Definition set_plan_steps (self : t) (steps : list str) : t :=
  {| requirement := requirement self;
     info_list := info_list self;
     plan_steps := steps;
     current_step_index :=
       match steps with [] => (-1)%Z | _ => 0%Z end |}.

Definition parse_steps (plan_text : str) : list str :=
  map (py_strip_chars STRIP_CHARS)
      (filter (fun step => truthy (py_strip step) = true)
              (py_split DELIM plan_text)).

Definition set_plan_steps_from_text (self : t) (plan_text : str) : t :=
  set_plan_steps self (parse_steps plan_text).

(** [update_plan_step] returns [None] where the source raises
    [IndexError]; the plan is untouched in that case. *)
Definition update_plan_step (self : t) (index : Z) (step : str)
  : option t :=
  if ((0 <=? index)%Z && (index <? Z.of_nat (length (plan_steps self)))%Z)
  then Some {| requirement := requirement self;
               info_list := info_list self;
               plan_steps := <[Z.to_nat index := step]> (plan_steps self);
               current_step_index := current_step_index self |}
  else None.

Definition get_current_step (self : t) : option str :=
  if ((0 <=? current_step_index self)%Z
      && (current_step_index self <? Z.of_nat (length (plan_steps self)))%Z)
  then plan_steps self !! Z.to_nat (current_step_index self)
  else None.

Definition advance_step (self : t) : t * bool :=
  if (current_step_index self + 1 <? Z.of_nat (length (plan_steps self)))%Z
  then ({| requirement := requirement self;
           info_list := info_list self;
           plan_steps := plan_steps self;
           current_step_index := (current_step_index self + 1)%Z |}, true)
  else (self, false).

(** [__str__]: the text handed to the model on every round. The
    [steps_text] local of the source is computed but not part of the
    returned text. *)
Definition render (self : t) : str :=
  utf8 "用户需求：" ++ requirement self ++ [LF]
  ++ utf8 "已有信息：" ++ [LF]
  ++ match info_list self with
     | [] => utf8 "   （无）" ++ [LF]
     | items => concat (map (fun item => utf8 "   - " ++ item ++ [LF]) items)
     end
  ++ utf8 "下一步操作："
  ++ match get_current_step self with
     | Some step => if truthy step then step else utf8 "（未设置）"
     | None => utf8 "（未设置）"
     end.

(** The mutating operations as data, to speak about every operation and
    about sequences of them. [exec] gives the plan after a call; a call of
    [update_plan_step] that raises leaves it as it was. *)
Inductive call :=
| AddInfo (info : str)
| SetPlanSteps (steps : list str)
| SetPlanStepsFromText (plan_text : str)
| UpdatePlanStep (index : Z) (step : str)
| AdvanceStep.

Definition exec (self : t) (c : call) : t :=
  match c with
  | AddInfo info => add_info self info
  | SetPlanSteps steps => set_plan_steps self steps
  | SetPlanStepsFromText plan_text => set_plan_steps_from_text self plan_text
  | UpdatePlanStep index step =>
      match update_plan_step self index step with
      | Some self' => self'
      | None => self
      end
  | AdvanceStep => fst (advance_step self)
  end.

Definition exec_all (self : t) (calls : list call) : t :=
  fold_left exec calls self.

Definition sets_plan (c : call) : bool :=
  match c with
  | SetPlanSteps _ | SetPlanStepsFromText _ => true
  | _ => false
  end.

(** [cursor < len(steps)] whenever [cursor >= 0]. *)
Definition cursor_in_range (self : t) : Prop :=
  (0 <= current_step_index self ->
   current_step_index self < Z.of_nat (length (plan_steps self)))%Z.

(** Empty or made of whitespace only. *)
Definition blank (s : str) : bool := forallb isspace s.


End Planning.

(** ** Python values exchanged with the collaborators

    Dictionaries are association lists in insertion order; the keys of the
    dictionaries built by the program are pairwise distinct literals. *)

Inductive json :=
| JNone
| JBool (b : bool)
| JInt (z : Z)
| JStr (s : str)
| JList (l : list json)
| JDict (d : list (str * json)).

Definition str_eqb (a b : str) : bool := bool_decide (a = b).

Fixpoint dict_get (d : list (str * json)) (key : str) : option json :=
  match d with
  | [] => None
  | (k, v) :: d' => if str_eqb k key then Some v else dict_get d' key
  end.

(** [a == b] for a string [a] and an arbitrary value [b]. *)
Definition eq_str (a : str) (b : json) : bool :=
  match b with
  | JStr s => str_eqb a s
  | _ => false
  end.

(** ** Exceptions *)

Inductive exn_kind :=
| LLMInvokeError     (* app.llm.exceptions *)
| ValueError
| KeyError
| TypeError
| IndexError
| RuntimeError
| JSONDecodeError
| McpError.          (* raised by the MCP transport or session *)

Record exn := Exn { kind : exn_kind; message : str }.

Inductive res (A : Type) :=
| Ok (a : A)
| Raise (e : exn).

Arguments Ok {A} a.
Arguments Raise {A} e.

(** [v[key]] *)
Definition getitem (v : json) (key : str) : res json :=
  match v with
  | JDict d =>
      match dict_get d key with
      | Some x => Ok x
      | None => Raise (Exn KeyError key)
      end
  | _ => Raise (Exn TypeError key)
  end.

(** ** app/utils/tools.py *)

Module Tool.
(** The [mcp.Tool] descriptor. *)
Record t := mk {
  name : str;
  description : option str;
  inputSchema : json
}.
End Tool.

Definition of_optional (o : option str) : json :=
  match o with
  | Some s => JStr s
  | None => JNone
  end.

Definition convert_tool_to_openai_param (tool : Tool.t) : json :=
  JDict [
    (utf8 "type", JStr (utf8 "function"));
    (utf8 "function",
      JDict [
        (utf8 "name", JStr (Tool.name tool));
        (utf8 "description", of_optional (Tool.description tool));
        (utf8 "parameters", Tool.inputSchema tool)
      ])
  ].

Definition convert_tools_to_openai_params (tools : list Tool.t) : list json :=
  map convert_tool_to_openai_param tools.

(** Reading a wire record back: the inverse direction of the conversion. *)
Definition to_optional (v : json) : option (option str) :=
  match v with
  | JStr s => Some (Some s)
  | JNone => Some None
  | _ => None
  end.

Definition tool_of_openai_param (param : json) : option Tool.t :=
  match param with
  | JDict d =>
      match dict_get d (utf8 "type"), dict_get d (utf8 "function") with
      | Some (JStr ty), Some (JDict f) =>
          if str_eqb ty (utf8 "function") then
            match dict_get f (utf8 "name"),
                  dict_get f (utf8 "description"),
                  dict_get f (utf8 "parameters") with
            | Some (JStr n), Some dv, Some schema =>
                match to_optional dv with
                | Some desc => Some (Tool.mk n desc schema)
                | None => None
                end
            | _, _, _ => None
            end
          else None
      | _, _ => None
      end
  | _ => None
  end.

(** ** The collaborators and the effects of a run *)

(** The reply of the model: [choices], of which the program reads the last
    one. The fields are the ones the loop reads, with the types of the
    parameters they are passed to. *)
Record ToolCall := {
  function_name : str;          (* tool_call.function.name *)
  function_arguments : str      (* tool_call.function.arguments *)
}.

Record Choice := {
  finish_reason : str;
  content : str;                (* message.content *)
  tool_calls : list ToolCall    (* message.tool_calls *)
}.

Definition ChatCompletion := list Choice.

(** A message of a request: role and content. *)
Definition message_param : Type := str * str.

(** What a run does that is visible outside: the progress events it yields
    and its requests to the model and to the tool session, in order. *)
Inductive action :=
| Yield (text : str)
| ChatCreate (messages : list message_param) (tools : option (list json))
| SessionOpen
| SessionListTools
| SessionCallTool (tool_name : str) (params : json)
| SessionClose.

(** The answers of the outside world. The model's answer may depend on the
    number of requests made before it and on the request; a transport
    failure is given by the text of the underlying exception. The result of
    a tool is given by its text, the way the loop formats it. [json_loads]
    is the [json.loads] of the Python library, [None] where it raises, and
    [py_str] the built-in [str] on values other than strings. *)
Record Env := {
  chat_create : nat -> list message_param -> option (list json)
                -> str + ChatCompletion;
  session_open : option exn;
  GAODE_KEY : str;              (* settings.GAODE_KEY *)
  session_list_tools : res (list Tool.t);
  session_call_tool : str -> json -> res str;
  json_loads : str -> option json;
  py_str : json -> str
}.

Module GaoDeMCPClient.
Record t := mk {
  api_key : str;
  session : bool;           (* whether [self.session] is set *)
  _tools : list json        (* the cached tool list *)
}.
Definition init (api_key : str) : t := mk api_key false [].
End GaoDeMCPClient.

(** The objects a run mutates, and the number of model requests so far. *)
Record state := {
  planning : Planning.t;
  gaode_client : GaoDeMCPClient.t;
  chat_calls : nat
}.

(** A computation reads and updates the state, appends to the log of
    actions, and returns or raises. Updates and actions made before an
    exception stay. *)
Definition M (A : Type) : Type := state -> list action * state * res A.

Definition ret {A} (a : A) : M A := fun s => ([], s, Ok a).

Definition bind {A B} (m : M A) (k : A -> M B) : M B :=
  fun s =>
    match m s with
    | (log, s', Ok a) =>
        match k a s' with
        | (log', s'', r) => (log ++ log', s'', r)
        end
    | (log, s', Raise e) => (log, s', Raise e)
    end.

Notation "x <- m ;; k" := (bind m (fun x => k))
  (at level 100, m at next level, right associativity).
Notation "m ;; k" := (bind m (fun _ => k))
  (at level 100, right associativity).

Definition raise {A} (e : exn) : M A := fun s => ([], s, Raise e).
Definition emit (a : action) : M unit := fun s => ([a], s, Ok tt).
Definition lift {A} (r : res A) : M A := fun s => ([], s, r).

Definition get_planning : M Planning.t := fun s => ([], s, Ok (planning s)).
Definition put_planning (p : Planning.t) : M unit :=
  fun s => ([], {| planning := p; gaode_client := gaode_client s;
                   chat_calls := chat_calls s |}, Ok tt).
Definition get_client : M GaoDeMCPClient.t :=
  fun s => ([], s, Ok (gaode_client s)).
Definition put_client (c : GaoDeMCPClient.t) : M unit :=
  fun s => ([], {| planning := planning s; gaode_client := c;
                   chat_calls := chat_calls s |}, Ok tt).
Definition next_chat_call : M nat :=
  fun s => ([], {| planning := planning s; gaode_client := gaode_client s;
                   chat_calls := S (chat_calls s) |}, Ok (chat_calls s)).

Definition modify_planning (f : Planning.t -> Planning.t) : M unit :=
  p <- get_planning ;; put_planning (f p).

(** The text of a value inside an f-string. *)
Definition py_format (env : Env) (v : json) : str :=
  match v with
  | JStr s => s
  | _ => py_str env v
  end.

(** [str.join] *)
Fixpoint join (sep : str) (parts : list str) : str :=
  match parts with
  | [] => []
  | [x] => x
  | x :: rest => x ++ sep ++ join sep rest
  end.

Section Run.

Variable env : Env.

(** *** app/mcp/gaode_mcp.py *)

Definition NOT_CONNECTED : exn :=
  Exn RuntimeError (utf8 "请先在 connect() 中使用 MCPClient").

Definition list_tools : M (list json) :=
  c <- get_client ;;
  if negb (GaoDeMCPClient.session c) then raise NOT_CONNECTED
  else
    emit SessionListTools ;;
    raw_tools <- lift (session_list_tools env) ;;
    let converted := convert_tools_to_openai_params raw_tools in
    put_client (GaoDeMCPClient.mk (GaoDeMCPClient.api_key c)
                                  (GaoDeMCPClient.session c) converted) ;;
    ret converted.

(** [[tool["name"] for tool in self._tools]] *)
Fixpoint registered_names (tools : list json) : res (list json) :=
  match tools with
  | [] => Ok []
  | tool :: rest =>
      match getitem tool (utf8 "name") with
      | Raise e => Raise e
      | Ok n =>
          match registered_names rest with
          | Raise e => Raise e
          | Ok ns => Ok (n :: ns)
          end
      end
  end.

Definition not_registered (tool_name : str) : exn :=
  Exn ValueError (utf8 "工具 '" ++ tool_name ++ utf8 "' 未注册或不可用").

Definition call_tool (tool_name : str) (params : json) : M str :=
  c <- get_client ;;
  if negb (GaoDeMCPClient.session c) then raise NOT_CONNECTED
  else
    (match GaoDeMCPClient._tools c with
     | [] => list_tools ;; ret tt
     | _ => ret tt
     end) ;;
    c <- get_client ;;
    names <- lift (registered_names (GaoDeMCPClient._tools c)) ;;
    if negb (existsb (eq_str tool_name) names)
    then raise (not_registered tool_name)
    else
      emit (SessionCallTool tool_name params) ;;
      lift (session_call_tool env tool_name params).

(** [connect]: the session is set for the body and cleared after it; when
    the body raises, the connection is closed and the exception goes on. *)
Definition connect {A} (body : M A) : M A :=
  emit SessionOpen ;;
  match session_open env with
  | Some e => raise e
  | None =>
      c <- get_client ;;
      put_client (GaoDeMCPClient.mk (GaoDeMCPClient.api_key c) true
                                    (GaoDeMCPClient._tools c)) ;;
      fun s =>
        match body s with
        | (log, s', Ok a) =>
            (log ++ [SessionClose],
             {| planning := planning s';
                gaode_client :=
                  GaoDeMCPClient.mk
                    (GaoDeMCPClient.api_key (gaode_client s')) false
                    (GaoDeMCPClient._tools (gaode_client s'));
                chat_calls := chat_calls s' |},
             Ok a)
        | (log, s', Raise e) => (log ++ [SessionClose], s', Raise e)
        end
  end.

(** *** app/llm/client.py

    [LLMClient.call] for the model [LLMModel.TEXT], whose configuration
    passes [validate_config] (temperature 0.7, the other two unset). *)
Definition LLMClient_call (messages : list message_param)
           (tools : option (list json)) : M ChatCompletion :=
  n <- next_chat_call ;;
  emit (ChatCreate messages tools) ;;
  match chat_create env n messages tools with
  | inl e => raise (Exn LLMInvokeError (utf8 "模型调用异常：" ++ e))
  | inr response => ret response
  end.

(** *** app/agent/MCPAgent.py *)

(** [result.choices[-1]] *)
Definition last_choice (result : ChatCompletion) : M Choice :=
  match last result with
  | Some c => ret c
  | None => raise (Exn IndexError (utf8 "list index out of range"))
  end.

Definition user_message (text : str) : list message_param :=
  [(utf8 "user", text)].

(** The entries of the catalog are dictionaries ([List[Dict]]); a
    "function" entry that is not a dictionary is read here as an empty one,
    where the source raises; the catalog of the agent has no such entry. *)
Definition build_system_prompt_with_tools (tools : list json) : str :=
  let intro :=
    utf8 "你是一个助手，根据用户已有的信息和可用工具，制定出一系列可执行的步骤。（如果工具需要的信息缺失就不要加到步骤中）"
    ++ utf8 "每一步都应是调用工具可以完成的具体操作，每一个步中只能有一个工具，步骤应清晰具体，逻辑合理。"
    ++ utf8 "使用英文逗号 `。` 分隔每个步骤，不要换行，最多3步。用中文回复。" ++ [LF; LF]
    ++ utf8 "当前可用的工具如下：" ++ [LF] in
  let describe (tool : json) : str :=
    let func :=
      match tool with
      | JDict d => match dict_get d (utf8 "function") with
                   | Some f => f
                   | None => JDict []
                   end
      | _ => JDict []
      end in
    let get (key : str) (default : str) : json :=
      match func with
      | JDict f => match dict_get f key with
                   | Some v => v
                   | None => JStr default
                   end
      | _ => JStr default
      end in
    utf8 "- " ++ py_format env (get (utf8 "name") (utf8 "unknown_tool"))
    ++ utf8 "：" ++ py_format env (get (utf8 "description") (utf8 "（无描述）"))
    ++ utf8 "；" in
  intro ++ join [LF] (map describe tools).

Definition TOOL_CALLS : str := utf8 "tool_calls".
Definition PLAN_HEADER : str := utf8 "----------当前计划----------".
Definition SEPARATOR : str := utf8 "---------------------------".
Definition NO_NEXT_STEP : str := utf8 "没有下一步了，直接输出结果".
Definition EXHAUSTED : exn :=
  Exn LLMInvokeError (utf8 "超过最大轮数仍未得到最终答案。").
Definition max_rounds : nat := 6.

(** The progress event of one tool request. *)
Definition tool_call_event (tool_call : ToolCall) : str :=
  utf8 "调用工具: " ++ function_name tool_call
  ++ utf8 ", 参数: " ++ function_arguments tool_call.

Definition loads (text : str) : M json :=
  match json_loads env text with
  | Some v => ret v
  | None => raise (Exn JSONDecodeError text)
  end.

(** The body of the loop over [tool_calls]. *)
Definition handle_tool_call (tool_call : ToolCall) : M unit :=
  let function_name := function_name tool_call in
  let function_args := function_arguments tool_call in
  emit (Yield (tool_call_event tool_call)) ;;
  params <- loads function_args ;;
  tool_wait <- call_tool function_name params ;;
  tool_result <-
    LLMClient_call
      (user_message (utf8 "工具调用结果: " ++ tool_wait ++ utf8 ",整合数据信息"))
      None ;;
  c <- last_choice tool_result ;;
  modify_planning (fun p => Planning.add_info p (content c)).

Fixpoint handle_tool_calls (calls : list ToolCall) : M unit :=
  match calls with
  | [] => ret tt
  | tool_call :: rest => handle_tool_call tool_call ;; handle_tool_calls rest
  end.

(** The tool-call phase of a round, given the last choice of the reply. *)
Definition dispatch (c : Choice) : M unit :=
  if str_eqb (finish_reason c) TOOL_CALLS
  then handle_tool_calls (tool_calls c)
  else ret tt.

Definition advance : M bool :=
  p <- get_planning ;;
  let '(p', can_next) := Planning.advance_step p in
  put_planning p' ;; ret can_next.

(** The messages of the request for the final answer. *)
Definition final_request (p : Planning.t) : list message_param :=
  user_message (utf8 "根据以下信息给出最终结果:" ++ [LF] ++ Planning.render p).

(** The loop-control phase: [None] to go on with the next round,
    [Some final_answer] on [break]. *)
Definition control : M (option str) :=
  can_next <- advance ;;
  if can_next then ret None
  else
    emit (Yield NO_NEXT_STEP) ;;
    p <- get_planning ;;
    result <- LLMClient_call (final_request p) None ;;
    c <- last_choice result ;;
    ret (Some (content c)).

Definition after_reply (c : Choice) : M (option str) :=
  dispatch c ;; control.

Definition str_of_step (step : option str) : str :=
  match step with
  | Some s => s
  | None => utf8 "None"
  end.

Definition round (tools : list json) : M (option str) :=
  emit (Yield SEPARATOR) ;;
  p <- get_planning ;;
  let current_step := Planning.get_current_step p in
  emit (Yield (str_of_step current_step)) ;;
  result <- LLMClient_call (user_message (Planning.render p)) (Some tools) ;;
  c <- last_choice result ;;
  after_reply c.

(** [for _ in range(n)]: the value of [final_answer] when the loop is left. *)
Fixpoint rounds (tools : list json) (n : nat) (final_answer : str) : M str :=
  match n with
  | O => ret final_answer
  | S n' =>
      r <- round tools ;;
      match r with
      | Some answer => ret answer
      | None => rounds tools n' final_answer
      end
  end.

(** The messages of the planning request. *)
Definition planning_request (tools : list json) (user_input : str)
  : list message_param :=
  let planning_prompt := build_system_prompt_with_tools tools in
  [(utf8 "system", planning_prompt); (utf8 "user", user_input)].

Definition planning_phase (tools : list json) (user_input : str) : M unit :=
  put_planning (Planning.init user_input) ;;
  planning_result <-
    LLMClient_call (planning_request tools user_input) None ;;
  c <- last_choice planning_result ;;
  modify_planning (fun p => Planning.set_plan_steps_from_text p (content c)) ;;
  emit (Yield PLAN_HEADER) ;;
  p <- get_planning ;;
  emit (Yield (Planning.render p)) ;;
  emit (Yield SEPARATOR).

Definition finish (final_answer : str) : M unit :=
  if negb (truthy final_answer) then raise EXHAUSTED
  else emit (Yield (utf8 "最终答案：" ++ final_answer)).

(** The run up to the end of the [for] statement: the value of
    [final_answer] there. *)
Definition plan_and_loop (tools : list json) (user_input : str) : M str :=
  planning_phase tools user_input ;;
  connect (rounds tools max_rounds []).

Definition run_from (tools : list json) (user_input : str) : M unit :=
  final_answer <- plan_and_loop tools user_input ;;
  finish final_answer.

End Run.

(** *** The agent object *)

Module MCPAgent.

Record t := mk { tools : list json }.

Definition get_default_tools : list json := [
  JDict [
    (utf8 "type", JStr (utf8 "function"));
    (utf8 "function",
      JDict [
        (utf8 "name", JStr (utf8 "maps_direction_bicycling"));
        (utf8 "description",
          JStr (utf8 "骑行路径规划用于规划骑行通勤方案，规划时会考虑天桥、单行线、封路等情况。最大支持 500km 的骑行路线规划"));
        (utf8 "parameters",
          JDict [
            (utf8 "type", JStr (utf8 "object"));
            (utf8 "properties",
              JDict [
                (utf8 "origin",
                  JDict [
                    (utf8 "type", JStr (utf8 "string"));
                    (utf8 "description", JStr (utf8 "出发点经纬度，坐标格式为：经度，纬度")) ]);
                (utf8 "destination",
                  JDict [
                    (utf8 "type", JStr (utf8 "string"));
                    (utf8 "description", JStr (utf8 "目的地经纬度，坐标格式为：经度，纬度")) ]) ]);
            (utf8 "required", JList [JStr (utf8 "origin"); JStr (utf8 "destination")]) ]) ]) ];
  JDict [
    (utf8 "type", JStr (utf8 "function"));
    (utf8 "function",
      JDict [
        (utf8 "name", JStr (utf8 "maps_direction_driving"));
        (utf8 "description",
          JStr (utf8 "驾车路径规划 API 可以根据用户起终点经纬度坐标规划以小客车、轿车通勤出行的方案，并且返回通勤方案的数据。"));
        (utf8 "parameters",
          JDict [
            (utf8 "type", JStr (utf8 "object"));
            (utf8 "properties",
              JDict [
                (utf8 "origin",
                  JDict [
                    (utf8 "type", JStr (utf8 "string"));
                    (utf8 "description", JStr (utf8 "出发点经纬度，坐标格式为：经度，纬度")) ]);
                (utf8 "destination",
                  JDict [
                    (utf8 "type", JStr (utf8 "string"));
                    (utf8 "description", JStr (utf8 "目的地经纬度，坐标格式为：经度，纬度")) ]) ]);
            (utf8 "required", JList [JStr (utf8 "origin"); JStr (utf8 "destination")]) ]) ]) ];
  JDict [
    (utf8 "type", JStr (utf8 "function"));
    (utf8 "function",
      JDict [
        (utf8 "name", JStr (utf8 "maps_direction_transit_integrated"));
        (utf8 "description",
          JStr (utf8 "根据用户起终点经纬度坐标规划综合各类公共（火车、公交、地铁）交通方式的通勤方案，并且返回通勤方案的数据，跨城场景下必须传起点城市与终点城市"));
        (utf8 "parameters",
          JDict [
            (utf8 "type", JStr (utf8 "object"));
            (utf8 "properties",
              JDict [
                (utf8 "origin",
                  JDict [
                    (utf8 "type", JStr (utf8 "string"));
                    (utf8 "description", JStr (utf8 "出发点经纬度，坐标格式为：经度，纬度")) ]);
                (utf8 "destination",
                  JDict [
                    (utf8 "type", JStr (utf8 "string"));
                    (utf8 "description", JStr (utf8 "目的地经纬度，坐标格式为：经度，纬度")) ]);
                (utf8 "city",
                  JDict [
                    (utf8 "type", JStr (utf8 "string"));
                    (utf8 "description", JStr (utf8 "公共交通规划起点城市")) ]);
                (utf8 "cityd",
                  JDict [
                    (utf8 "type", JStr (utf8 "string"));
                    (utf8 "description", JStr (utf8 "公共交通规划终点城市")) ]) ]);
            (utf8 "required",
              JList [JStr (utf8 "origin"); JStr (utf8 "destination"); JStr (utf8 "city"); JStr (utf8 "cityd")]) ]) ]) ];
  JDict [
    (utf8 "type", JStr (utf8 "function"));
    (utf8 "function",
      JDict [
        (utf8 "name", JStr (utf8 "maps_direction_walking"));
        (utf8 "description", JStr (utf8 "根据输入起点终点经纬度坐标规划100km 以内的步行通勤方案，并且返回通勤方案的数据"));
        (utf8 "parameters",
          JDict [
            (utf8 "type", JStr (utf8 "object"));
            (utf8 "properties",
              JDict [
                (utf8 "origin",
                  JDict [
                    (utf8 "type", JStr (utf8 "string"));
                    (utf8 "description", JStr (utf8 "出发点经度，纬度，坐标格式为：经度，纬度")) ]);
                (utf8 "destination",
                  JDict [
                    (utf8 "type", JStr (utf8 "string"));
                    (utf8 "description", JStr (utf8 "目的地经度，纬度，坐标格式为：经度，纬度")) ]) ]);
            (utf8 "required", JList [JStr (utf8 "origin"); JStr (utf8 "destination")]) ]) ]) ];
  JDict [
    (utf8 "type", JStr (utf8 "function"));
    (utf8 "function",
      JDict [
        (utf8 "name", JStr (utf8 "maps_distance"));
        (utf8 "description", JStr (utf8 "测量两个经纬度坐标之间的距离,支持驾车、步行以及球面距离测量"));
        (utf8 "parameters",
          JDict [
            (utf8 "type", JStr (utf8 "object"));
            (utf8 "properties",
              JDict [
                (utf8 "origins",
                  JDict [
                    (utf8 "type", JStr (utf8 "string"));
                    (utf8 "description",
                      JStr (utf8 "起点经度，纬度，可以传多个坐标，使用分号隔离，比如120,30;120,31，坐标格式为：经度，纬度")) ]);
                (utf8 "destination",
                  JDict [
                    (utf8 "type", JStr (utf8 "string"));
                    (utf8 "description", JStr (utf8 "终点经度，纬度，坐标格式为：经度，纬度")) ]);
                (utf8 "type",
                  JDict [
                    (utf8 "type", JStr (utf8 "string"));
                    (utf8 "description", JStr (utf8 "距离测量类型,1代表驾车距离测量，0代表直线距离测量，3步行距离测量")) ]) ]);
            (utf8 "required", JList [JStr (utf8 "origins"); JStr (utf8 "destination")]) ]) ]) ];
  JDict [
    (utf8 "type", JStr (utf8 "function"));
    (utf8 "function",
      JDict [
        (utf8 "name", JStr (utf8 "maps_geo"));
        (utf8 "description", JStr (utf8 "将详细的结构化地址转换为经纬度坐标。支持对地标性名胜景区、建筑物名称解析为经纬度坐标"));
        (utf8 "parameters",
          JDict [
            (utf8 "type", JStr (utf8 "object"));
            (utf8 "properties",
              JDict [
                (utf8 "address",
                  JDict [
                    (utf8 "type", JStr (utf8 "string"));
                    (utf8 "description", JStr (utf8 "待解析的结构化地址信息")) ]);
                (utf8 "city",
                  JDict [
                    (utf8 "type", JStr (utf8 "string"));
                    (utf8 "description", JStr (utf8 "指定查询的城市")) ]) ]);
            (utf8 "required", JList [JStr (utf8 "address")]) ]) ]) ];
  JDict [
    (utf8 "type", JStr (utf8 "function"));
    (utf8 "function",
      JDict [
        (utf8 "name", JStr (utf8 "maps_regeocode"));
        (utf8 "description", JStr (utf8 "将一个高德经纬度坐标转换为行政区划地址信息"));
        (utf8 "parameters",
          JDict [
            (utf8 "type", JStr (utf8 "object"));
            (utf8 "properties",
              JDict [
                (utf8 "location",
                  JDict [
                    (utf8 "type", JStr (utf8 "string"));
                    (utf8 "description", JStr (utf8 "经纬度")) ]) ]);
            (utf8 "required", JList [JStr (utf8 "location")]) ]) ]) ];
  JDict [
    (utf8 "type", JStr (utf8 "function"));
    (utf8 "function",
      JDict [
        (utf8 "name", JStr (utf8 "maps_ip_location"));
        (utf8 "description", JStr (utf8 "IP 定位根据用户输入的 IP 地址，定位 IP 的所在位置"));
        (utf8 "parameters",
          JDict [
            (utf8 "type", JStr (utf8 "object"));
            (utf8 "properties",
              JDict [
                (utf8 "ip",
                  JDict [
                    (utf8 "type", JStr (utf8 "string"));
                    (utf8 "description", JStr (utf8 "IP地址")) ]) ]);
            (utf8 "required", JList [JStr (utf8 "ip")]) ]) ]) ];
  JDict [
    (utf8 "type", JStr (utf8 "function"));
    (utf8 "function",
      JDict [
        (utf8 "name", JStr (utf8 "maps_around_search"));
        (utf8 "description", JStr (utf8 "周边搜，根据用户传入关键词以及坐标location，搜索出radius半径范围的POI"));
        (utf8 "parameters",
          JDict [
            (utf8 "type", JStr (utf8 "object"));
            (utf8 "properties",
              JDict [
                (utf8 "keywords",
                  JDict [
                    (utf8 "type", JStr (utf8 "string"));
                    (utf8 "description", JStr (utf8 "搜索关键词")) ]);
                (utf8 "location",
                  JDict [
                    (utf8 "type", JStr (utf8 "string"));
                    (utf8 "description", JStr (utf8 "中心点经度纬度")) ]);
                (utf8 "radius",
                  JDict [
                    (utf8 "type", JStr (utf8 "string"));
                    (utf8 "description", JStr (utf8 "搜索半径")) ]) ]);
            (utf8 "required", JList [JStr (utf8 "keywords"); JStr (utf8 "location")]) ]) ]) ];
  JDict [
    (utf8 "type", JStr (utf8 "function"));
    (utf8 "function",
      JDict [
        (utf8 "name", JStr (utf8 "maps_search_detail"));
        (utf8 "description", JStr (utf8 "查询关键词搜或者周边搜获取到的POI ID的详细信息"));
        (utf8 "parameters",
          JDict [
            (utf8 "type", JStr (utf8 "object"));
            (utf8 "properties",
              JDict [
                (utf8 "id",
                  JDict [
                    (utf8 "type", JStr (utf8 "string"));
                    (utf8 "description", JStr (utf8 "关键词搜或者周边搜获取到的POI ID")) ]) ]);
            (utf8 "required", JList [JStr (utf8 "id")]) ]) ]) ];
  JDict [
    (utf8 "type", JStr (utf8 "function"));
    (utf8 "function",
      JDict [
        (utf8 "name", JStr (utf8 "maps_text_search"));
        (utf8 "description", JStr (utf8 "关键字搜索 API 根据用户输入的关键字进行 POI 搜索，并返回相关的信息"));
        (utf8 "parameters",
          JDict [
            (utf8 "type", JStr (utf8 "object"));
            (utf8 "properties",
              JDict [
                (utf8 "keywords",
                  JDict [
                    (utf8 "type", JStr (utf8 "string"));
                    (utf8 "description", JStr (utf8 "查询关键字")) ]);
                (utf8 "city",
                  JDict [
                    (utf8 "type", JStr (utf8 "string"));
                    (utf8 "description", JStr (utf8 "查询城市")) ]);
                (utf8 "citylimit",
                  JDict [
                    (utf8 "type", JStr (utf8 "boolean"));
                    (utf8 "default", JBool false);
                    (utf8 "description", JStr (utf8 "是否限制城市范围内搜索，默认不限制")) ]) ]);
            (utf8 "required", JList [JStr (utf8 "keywords")]) ]) ]) ];
  JDict [
    (utf8 "type", JStr (utf8 "function"));
    (utf8 "function",
      JDict [
        (utf8 "name", JStr (utf8 "maps_weather"));
        (utf8 "description", JStr (utf8 "根据城市名称或者标准adcode查询指定城市的天气"));
        (utf8 "parameters",
          JDict [
            (utf8 "type", JStr (utf8 "object"));
            (utf8 "properties",
              JDict [
                (utf8 "city",
                  JDict [
                    (utf8 "type", JStr (utf8 "string"));
                    (utf8 "description", JStr (utf8 "城市名称或者adcode")) ]) ]);
            (utf8 "required", JList [JStr (utf8 "city")]) ]) ]) ]
].

Definition init : t := mk get_default_tools.

(** The state at the start of [run]: the two clients are created, then
    the plan for the request. *)
Definition initial_state (env : Env) (user_input : str) : state :=
  {| planning := Planning.init user_input;
     gaode_client := GaoDeMCPClient.init (GAODE_KEY env);
     chat_calls := 0 |}.

(** [run]: the log of actions, the final state, and how the run ended. *)
Definition run (env : Env) (self : t) (user_input : str)
  : list action * state * res unit :=
  run_from env (tools self) user_input (initial_state env user_input).


End MCPAgent.

(** ** Reading a log *)

Definition is_round_request (a : action) : bool :=
  match a with
  | ChatCreate _ (Some _) => true
  | _ => false
  end.

Definition is_invocation (a : action) : bool :=
  match a with
  | SessionCallTool _ _ => true
  | _ => false
  end.

Definition is_session_request (a : action) : bool :=
  match a with
  | SessionListTools | SessionCallTool _ _ => true
  | _ => false
  end.

(** Every round makes exactly one request that carries the tool catalog, and
    no other request does: the rounds of a log are these requests. *)
Definition rounds_executed (log : list action) : nat :=
  length (List.filter is_round_request log).

Definition invocations (log : list action) : list action :=
  List.filter is_invocation log.

Fixpoint events (log : list action) : list str :=
  match log with
  | [] => []
  | Yield text :: rest => text :: events rest
  | _ :: rest => events rest
  end.

Definition log_of {A} (r : list action * state * res A) : list action :=
  fst (fst r).
Definition state_of {A} (r : list action * state * res A) : state :=
  snd (fst r).
Definition outcome_of {A} (r : list action * state * res A) : res A :=
  snd r.

(** [bounded P n m]: whatever the state, [m] logs at most [n] actions that
    satisfy [P]. *)
Definition bounded (P : action -> bool) (n : nat) {A} (m : M A) : Prop :=
  forall s, (length (List.filter P (log_of (m s))) <= n)%nat.

(** ** States met along a run *)

(** After one more request to the model. *)
Definition bump (s : state) : state :=
  {| planning := planning s; gaode_client := gaode_client s;
     chat_calls := S (chat_calls s) |}.

(** Inside [connect]: the session is set. *)
Definition opened (s : state) : state :=
  {| planning := planning s;
     gaode_client := GaoDeMCPClient.mk (GaoDeMCPClient.api_key (gaode_client s))
                                       true
                                       (GaoDeMCPClient._tools (gaode_client s));
     chat_calls := chat_calls s |}.

(** With another plan. *)
Definition with_planning (s : state) (p : Planning.t) : state :=
  {| planning := p; gaode_client := gaode_client s; chat_calls := chat_calls s |}.

(** ** The catalog behind the dispatch guard

    The cache of the client is only ever written by [list_tools], which
    stores converted descriptors. *)
Definition cache_from_list_tools (c : GaoDeMCPClient.t) : Prop :=
  exists raw_tools,
    GaoDeMCPClient._tools c = convert_tools_to_openai_params raw_tools.

(** The catalog a call of [call_tool] checks the name against: the cache,
    filled from the tool session first when it is empty. *)
Definition catalog (env : Env) (c : GaoDeMCPClient.t) : list json :=
  match GaoDeMCPClient._tools c with
  | [] => match session_list_tools env with
          | Ok raw_tools => convert_tools_to_openai_params raw_tools
          | Raise _ => []
          end
  | cached => cached
  end.

(** The names of the tools of a catalog. *)
Definition known_names (tools : list json) : list str :=
  omap (fun param => Tool.name <$> tool_of_openai_param param) tools.

(** ** Concrete collaborators for the scenarios *)

Module Scenario.

Definition QUOTE : N := 34.

(** The arguments text [{"city":"上海"}] and its parsed value. *)
Definition weather_args : str :=
  utf8 "{" ++ [QUOTE] ++ utf8 "city" ++ [QUOTE] ++ utf8 ":"
  ++ [QUOTE] ++ utf8 "上海" ++ [QUOTE] ++ utf8 "}".

Definition weather_params : json :=
  JDict [(utf8 "city", JStr (utf8 "上海"))].

Definition loads_weather (text : str) : option json :=
  if str_eqb text weather_args then Some weather_params else None.

(** The descriptor of [maps_weather] as the tool session lists it. *)
Definition maps_weather : Tool.t :=
  Tool.mk (utf8 "maps_weather")
          (Some (utf8 "根据城市名称或者标准adcode查询指定城市的天气"))
          (JDict [ (utf8 "type", JStr (utf8 "object"));
                   (utf8 "properties",
                     JDict [ (utf8 "city",
                               JDict [ (utf8 "type", JStr (utf8 "string"));
                                       (utf8 "description",
                                         JStr (utf8 "城市名称或者adcode")) ]) ]);
                   (utf8 "required", JList [JStr (utf8 "city")]) ]).

Definition plain (text : str) : str + ChatCompletion :=
  inr [ {| finish_reason := utf8 "stop"; content := text; tool_calls := [] |} ].

Definition wants (calls : list ToolCall) : str + ChatCompletion :=
  inr [ {| finish_reason := utf8 "tool_calls"; content := []; tool_calls := calls |} ].

(** A world whose model answers request number [n] with [replies n], and
    whose tool session lists [server_tools]. *)
Definition world (replies : nat -> str + ChatCompletion)
           (server_tools : list Tool.t) : Env :=
  {| chat_create := fun n _ _ => replies n;
     session_open := None;
     GAODE_KEY := utf8 "key";
     session_list_tools := Ok server_tools;
     session_call_tool := fun _ _ => Ok (utf8 "晴");
     json_loads := loads_weather;
     py_str := fun _ => utf8 "None" |}.

Definition request : str := utf8 "帮我看一下上海的天气".



(** An empty plan, after which nothing asks for a tool. *)
Definition empty_plan : Env :=
  world (fun n => match n with
                  | O => plain []
                  | _ => plain (utf8 "好")
                  end)
        [maps_weather].

(** An empty plan, after which the model asks for a tool with arguments
    that do not parse. *)
Definition empty_plan_bad_arguments : Env :=
  world (fun n => match n with
                  | O => plain []
                  | 1%nat => wants [ {| function_name := utf8 "maps_weather";
                                        function_arguments := utf8 "{" |} ]
                  | _ => plain (utf8 "好")
                  end)
        [maps_weather].

(** One step; in its round the model asks for [maps_weather], which the
    tool session lists. *)
Definition weather_round : Env :=
  world (fun n => match n with
                  | O => plain (utf8 "查天气。")
                  | 1%nat => wants [ {| function_name := utf8 "maps_weather";
                                        function_arguments := weather_args |} ]
                  | _ => plain (utf8 "晴天")
                  end)
        [maps_weather].

(** One step, no tool request, and an empty text as the final answer. *)
Definition empty_answer : Env :=
  world (fun n => match n with
                  | O => plain (utf8 "查天气。")
                  | 1%nat => plain (utf8 "好")
                  | _ => plain []
                  end)
        [maps_weather].

(** A connected client, with an empty or a filled cache. *)
Definition connected (cache : list json) (p : Planning.t) : state :=
  {| planning := p;
     gaode_client := GaoDeMCPClient.mk (utf8 "key") true cache;
     chat_calls := 0 |}.

End Scenario.

(** ** Walking through a plan

    The way the loop uses a plan: read the current step, advance, and go on
    while [advance_step] answers true. [visit] lists the steps read. *)
Fixpoint visit (fuel : nat) (p : Planning.t) : list str :=
  match fuel with
  | O => []
  | S fuel' =>
      match Planning.get_current_step p with
      | None => []
      | Some step =>
          step :: (if snd (Planning.advance_step p)
                   then visit fuel' (fst (Planning.advance_step p))
                   else [])
      end
  end.

(** The plans met in use: no step and cursor [-1], or a cursor on a step. *)
Definition plan_well_formed (p : Planning.t) : Prop :=
  (Planning.plan_steps p = [] /\ Planning.current_step_index p = (-1)%Z)
  \/ (0 <= Planning.current_step_index p
      < Z.of_nat (length (Planning.plan_steps p)))%Z.

(** ** app/llm/enums.py

    The values of the numeric parameters: a Python float is a rational, an
    infinity or a NaN, and its comparisons with the integer bounds of
    [validate_config] are the exact ones. *)
Module LLMModel.

Inductive pyfloat :=
| Finite (q : Q)
| PlusInf
| MinusInf
| NaN.

(** [z <= x], [z < x], [x <= z] and [x < z] for an integer [z]. *)
Definition z_le (z : Z) (x : pyfloat) : bool :=
  match x with
  | Finite q => Qle_bool (inject_Z z) q
  | PlusInf => true
  | MinusInf | NaN => false
  end.

Definition z_lt (z : Z) (x : pyfloat) : bool :=
  match x with
  | Finite q => negb (Qle_bool q (inject_Z z))
  | PlusInf => true
  | MinusInf | NaN => false
  end.

Definition le_z (x : pyfloat) (z : Z) : bool :=
  match x with
  | Finite q => Qle_bool q (inject_Z z)
  | MinusInf => true
  | PlusInf | NaN => false
  end.

Definition lt_z (x : pyfloat) (z : Z) : bool :=
  match x with
  | Finite q => negb (Qle_bool (inject_Z z) q)
  | MinusInf => true
  | PlusInf | NaN => false
  end.

(** [LLMModelConfig]: the fields the program reads. *)
Record LLMModelConfig := {
  _model : str;
  _name_zh : str;
  _api_key : str;
  stream : bool;
  _base_url : option str;
  temperature : option pyfloat;
  top_p : option pyfloat;
  presence_penalty : option pyfloat
}.

Inductive t := TEXT | IMAGE | VIDEO.

(** The float written [0.7]: the binary64 number nearest to 7/10. *)
Definition SEVEN_TENTHS : pyfloat :=
  Finite (3152519739159347 # 4503599627370496).

(** The value of a member, given the two settings it reads. *)
Definition value (ALI_TEXT_MODEL_URL ALI_MODEL_API_KEY : str) (m : t)
  : LLMModelConfig :=
  match m with
  | TEXT =>
      {| _model := utf8 "qwen-turbo";
         _name_zh := utf8 "通义千问-文本模型";
         _api_key := ALI_MODEL_API_KEY;
         stream := false;
         _base_url := Some ALI_TEXT_MODEL_URL;
         temperature := Some SEVEN_TENTHS;
         top_p := None;
         presence_penalty := None |}
  | IMAGE =>
      {| _model := utf8 "qwen2.5-vl-3b-instruct";
         _name_zh := utf8 "阿里图像识别模型";
         _api_key := ALI_MODEL_API_KEY;
         stream := false;
         _base_url := Some (utf8 "https://dashscope.aliyuncs.com/api/image/classify");
         temperature := Some SEVEN_TENTHS;
         top_p := None;
         presence_penalty := None |}
  | VIDEO =>
      {| _model := utf8 "qwen-omni-turbo";
         _name_zh := utf8 "阿里视频识别模型";
         _api_key := utf8 "ALIYUN_VIDEO_MODEL_API_KEY";
         stream := false;
         _base_url := Some (utf8 "https://dashscope.aliyuncs.com/api/video/recognize");
         temperature := Some SEVEN_TENTHS;
         top_p := None;
         presence_penalty := None |}
  end.

Definition TEMPERATURE_RANGE : exn :=
  Exn ValueError (utf8 "temperature 必须在 [0, 2) 范围内").
Definition TOP_P_RANGE : exn :=
  Exn ValueError (utf8 "top_p 必须在 (0, 1.0] 范围内").
Definition PRESENCE_PENALTY_RANGE : exn :=
  Exn ValueError (utf8 "presence_penalty 必须在 [-2.0, 2.0] 范围内").

(** [cfg.x is not None and not (test)] *)
Definition out_of_range (x : option pyfloat) (test : pyfloat -> bool) : bool :=
  match x with
  | Some v => negb (test v)
  | None => false
  end.

Definition validate_config (cfg : LLMModelConfig) : res unit :=
  if out_of_range (temperature cfg) (fun v => z_le 0 v && lt_z v 2)
  then Raise TEMPERATURE_RANGE
  else if out_of_range (top_p cfg) (fun v => z_lt 0 v && le_z v 1)
  then Raise TOP_P_RANGE
  else if out_of_range (presence_penalty cfg)
                       (fun v => z_le (-2) v && le_z v 2)
  then Raise PRESENCE_PENALTY_RANGE
  else Ok tt.

(** The ranges, as propositions. *)
Definition within (lo : Z) (lo_open : bool) (hi : Z) (hi_open : bool)
           (x : option pyfloat) : Prop :=
  match x with
  | None => True
  | Some (Finite q) =>
      (if lo_open then inject_Z lo < q else inject_Z lo <= q)%Q
      /\ (if hi_open then q < inject_Z hi else q <= inject_Z hi)%Q
  | Some _ => False
  end.

End LLMModel.

(** ** app/service/websocket_service.py

    [active_connections] is a dictionary in insertion order: an association
    list with at most one entry per key. A websocket is named by a number;
    whether its [accept] and [send_text] raise is given from outside. *)
Module ConnectionManager.

Definition WebSocket := nat.

Section Dict.
Context {V : Type}.

Fixpoint get (d : list (str * V)) (key : str) : option V :=
  match d with
  | [] => None
  | (k, v) :: d' => if str_eqb k key then Some v else get d' key
  end.

(** [d[key] = value]: in place for a key that is present, at the end for a
    new one. *)
Fixpoint set (d : list (str * V)) (key : str) (value : V) : list (str * V) :=
  match d with
  | [] => [(key, value)]
  | (k, v) :: d' =>
      if str_eqb k key then (k, value) :: d' else (k, v) :: set d' key value
  end.

(** [del d[key]] for a key that is present. *)
Fixpoint del (d : list (str * V)) (key : str) : list (str * V) :=
  match d with
  | [] => []
  | (k, v) :: d' => if str_eqb k key then d' else (k, v) :: del d' key
  end.

End Dict.

Record t := mk { active_connections : list (str * WebSocket) }.

Definition init : t := mk [].

Inductive ws_action :=
| Accept (websocket : WebSocket)
| SendText (websocket : WebSocket) (message : str).

Record Sockets := {
  accept : WebSocket -> option exn;
  send_text : WebSocket -> str -> option exn
}.

Definition connect (io : Sockets) (self : t) (websocket : WebSocket)
           (client_id : str) : list ws_action * t * res unit :=
  match accept io websocket with
  | Some e => ([Accept websocket], self, Raise e)
  | None =>
      ([Accept websocket],
       mk (set (active_connections self) client_id websocket), Ok tt)
  end.

Definition disconnect (self : t) (client_id : str) : t :=
  match get (active_connections self) client_id with
  | Some _ => mk (del (active_connections self) client_id)
  | None => self
  end.

Definition send_personal_message (io : Sockets) (self : t) (message : str)
           (client_id : str) : list ws_action * res unit :=
  match get (active_connections self) client_id with
  | Some websocket =>
      ([SendText websocket message],
       match send_text io websocket message with
       | Some e => Raise e
       | None => Ok tt
       end)
  | None => ([], Ok tt)
  end.

(** The loop over [self.active_connections.values()]. *)
Fixpoint broadcast_to (io : Sockets) (connections : list WebSocket)
         (message : str) : list ws_action * res unit :=
  match connections with
  | [] => ([], Ok tt)
  | connection :: rest =>
      match send_text io connection message with
      | Some e => ([SendText connection message], Raise e)
      | None =>
          let '(log, r) := broadcast_to io rest message in
          (SendText connection message :: log, r)
      end
  end.

Definition broadcast (io : Sockets) (self : t) (message : str)
  : list ws_action * res unit :=
  broadcast_to io (map snd (active_connections self)) message.

End ConnectionManager.

(** ** app/api/websocket.py

    A connection as the endpoint meets it: what each [receive_text] gives,
    the client being gone once the script is used up. *)
Module Websocket.

(** How a call on the websocket fails: with [WebSocketDisconnect], or with
    another exception. *)
Inductive failure :=
| Gone
| Broken (e : exn).

Inductive received :=
| Text (data : str)
| Fails (f : failure).

Inductive endpoint_action :=
| WsAccept
| WsSend (text : str)
| LogWarning
| LogError (text : str)
| WsClose (code : Z).

Definition MESSAGE_LIMIT : nat := 1024.
Definition TOO_LONG : str := utf8 "消息过长，最大支持1024字节".

(** The answer to one message. *)
Definition reply (data : str) : str :=
  if (MESSAGE_LIMIT <? length data)%nat then TOO_LONG
  else utf8 "Message text was: " ++ data.

Definition test_reply (data : str) : str :=
  utf8 "[测试回显] Message text was: " ++ data.

(** The two [except] branches. *)
Definition on_failure (prefix : str) (f : failure) : list endpoint_action :=
  match f with
  | Gone => [LogWarning]
  | Broken e => [LogError (prefix ++ message e); WsClose 1011]
  end.

(** The [while True] loop; [send] tells for which texts [send_text]
    fails. *)
Fixpoint serve (answer : str -> str) (error_prefix : str)
         (send : str -> option failure) (script : list received)
  : list endpoint_action :=
  match script with
  | [] => on_failure error_prefix Gone
  | Fails f :: _ => on_failure error_prefix f
  | Text data :: rest =>
      match send (answer data) with
      | Some f => WsSend (answer data) :: on_failure error_prefix f
      | None => WsSend (answer data) :: serve answer error_prefix send rest
      end
  end.

Definition websocket_endpoint (accept : option failure)
           (send : str -> option failure) (script : list received)
  : list endpoint_action :=
  WsAccept ::
  match accept with
  | Some f => on_failure (utf8 "WebSocket错误: ") f
  | None => serve reply (utf8 "WebSocket错误: ") send script
  end.

Definition websocket_test_endpoint (accept : option failure)
           (send : str -> option failure) (script : list received)
  : list endpoint_action :=
  WsAccept ::
  match accept with
  | Some f => on_failure (utf8 "[测试] WebSocket错误: ") f
  | None => serve test_reply (utf8 "[测试] WebSocket错误: ") send script
  end.

Definition sent (log : list endpoint_action) : list str :=
  omap (fun a => match a with WsSend text => Some text | _ => None end) log.

Definition closes (log : list endpoint_action) : list Z :=
  omap (fun a => match a with WsClose code => Some code | _ => None end) log.

(** The texts received before the first failure. *)
Fixpoint texts (script : list received) : list str :=
  match script with
  | Text data :: rest => data :: texts rest
  | _ => []
  end.

End Websocket.

(** ** Reading a run *)

(** [keeps I P m]: from a state that satisfies [I], the computation [m] ends
    in a state that satisfies [I] and logs no action that satisfies [P]. *)
Definition keeps (I : state -> Prop) (P : action -> bool) {A} (m : M A)
  : Prop :=
  forall s, I s -> I (state_of (m s)) /\ List.filter P (log_of (m s)) = [].



Definition FINAL_ANSWER : str := utf8 "最终答案：".

(** What [run] does after the [for] statement, from the way it was left. *)
Definition final_events (loop_outcome : res str) : list action :=
  match loop_outcome with
  | Ok final_answer =>
      if truthy final_answer then [Yield (FINAL_ANSWER ++ final_answer)] else []
  | Raise _ => []
  end.

Definition final_outcome (loop_outcome : res str) : res unit :=
  match loop_outcome with
  | Ok final_answer => if truthy final_answer then Ok tt else Raise EXHAUSTED
  | Raise e => Raise e
  end.

(** * Properties *)

(** ** Strings *)

(** The literals of the sources, decoded. *)
Example utf8_delim : utf8 "。" = [Planning.DELIM].
Proof. reflexivity. Qed.

Example utf8_strip_chars : utf8 " 。" ++ [LF] = Planning.STRIP_CHARS.
Proof. reflexivity. Qed.

Section Strip.

Variable p : N -> bool.

Lemma lstrip_by_keeps (x : N) (s : str) :
  In x s -> p x = false -> In x (lstrip_by p s).
Proof.
  induction s as [|c s IH]; simpl; [tauto|].
  intros [->|Hin] Hx.
  - rewrite Hx. now left.
  - destruct (p c); [auto | now right].
Qed.

Lemma strip_by_keeps (x : N) (s : str) :
  In x s -> p x = false -> In x (strip_by p s).
Proof.
  intros Hin Hx. unfold strip_by, rstrip_by.
  apply in_rev. rewrite rev_involutive.
  apply lstrip_by_keeps; [|assumption].
  apply in_rev. rewrite rev_involutive.
  now apply lstrip_by_keeps.
Qed.

Lemma lstrip_by_all (s : str) :
  forallb p s = true -> lstrip_by p s = [].
Proof.
  induction s as [|c s IH]; simpl; [reflexivity|].
  destruct (p c); simpl; [assumption | discriminate].
Qed.

Lemma strip_by_all (s : str) :
  forallb p s = true -> strip_by p s = [].
Proof.
  intros H. unfold strip_by. now rewrite lstrip_by_all.
Qed.

Lemma strip_by_nil (s : str) :
  strip_by p s = [] -> forallb p s = true.
Proof.
  intros H. apply forallb_forall. intros x Hin.
  destruct (p x) eqn:Hx; [reflexivity|].
  pose proof (strip_by_keeps x s Hin Hx) as Hk.
  rewrite H in Hk. destruct Hk.
Qed.






End Strip.


Lemma truthy_strip_blank (s : str) :
  truthy (py_strip s) = negb (Planning.blank s).
Proof.
  unfold py_strip, Planning.blank.
  destruct (forallb isspace s) eqn:Hb.
  - now rewrite strip_by_all.
  - destruct (strip_by isspace s) eqn:Hs; [|reflexivity].
    apply strip_by_nil in Hs. congruence.
Qed.

Lemma py_split_not_nil (sep : N) (s : str) : py_split sep s <> [].
Proof.
  destruct s as [|c s]; simpl; [discriminate|].
  destruct (c =? sep); [discriminate|].
  destruct (py_split sep s); discriminate.
Qed.


Lemma py_split_no_sep (sep : N) (s : str) :
  ~ In sep s -> py_split sep s = [s].
Proof.
  induction s as [|c s IH]; simpl; [reflexivity|].
  intros Hn. destruct (N.eqb_spec c sep) as [->|Hne]; [tauto|].
  rewrite IH by tauto. reflexivity.
Qed.

(** ** The step plan *)




Lemma parse_steps_no_delimiter (plan_text : str) :
  ~ In Planning.DELIM plan_text ->
  Planning.blank plan_text = false ->
  Planning.parse_steps plan_text
    = [py_strip_chars Planning.STRIP_CHARS plan_text].
Proof.
  intros Hsep Hb. unfold Planning.parse_steps.
  rewrite py_split_no_sep by assumption.
  rewrite filter_cons_True; [reflexivity|].
  rewrite truthy_strip_blank, Hb. reflexivity.
Qed.

Lemma advance_step_empty (self : Planning.t) (steps : list str) :
  steps = [] ->
  let p := Planning.set_plan_steps self steps in
  Planning.advance_step p = (p, false) /\ Planning.get_current_step p = None.
Proof. intros ->. split; reflexivity. Qed.





(** The length of the step list and the cursor under the calls that do not
    set a plan. *)
Lemma exec_keeps_length (self : Planning.t) (c : Planning.call) :
  Planning.sets_plan c = false ->
  length (Planning.plan_steps (Planning.exec self c))
  = length (Planning.plan_steps self).
Proof.
  destruct c as [info|steps|text|index step|]; simpl; try discriminate; intros _.
  - reflexivity.
  - unfold Planning.update_plan_step.
    destruct (_ && _); simpl; [apply length_insert | reflexivity].
  - unfold Planning.advance_step. destruct (_ <? _)%Z; reflexivity.
Qed.

Lemma exec_cursor (self : Planning.t) (c : Planning.call) :
  Planning.sets_plan c = false ->
  let i := Planning.current_step_index self in
  let i' := Planning.current_step_index (Planning.exec self c) in
  (i' = i
   \/ (i' = i + 1 /\ i + 1 < Z.of_nat (length (Planning.plan_steps self))))%Z.
Proof.
  destruct c as [info|steps|text|index step|]; simpl; try discriminate; intros _.
  - now left.
  - unfold Planning.update_plan_step. destruct (_ && _); now left.
  - unfold Planning.advance_step.
    destruct (Z.ltb_spec (Planning.current_step_index self + 1)
                         (Z.of_nat (length (Planning.plan_steps self))));
      simpl; [right; lia | now left].
Qed.

Lemma exec_all_monotone (calls : list Planning.call) (self : Planning.t) :
  Forall (fun c => Planning.sets_plan c = false) calls ->
  length (Planning.plan_steps (Planning.exec_all self calls))
  = length (Planning.plan_steps self)
  /\ (Planning.current_step_index self
      <= Planning.current_step_index (Planning.exec_all self calls))%Z
  /\ ((Planning.current_step_index self + 1
       <? Z.of_nat (length (Planning.plan_steps self)))%Z = false ->
      Planning.current_step_index (Planning.exec_all self calls)
      = Planning.current_step_index self).
Proof.
  revert self. induction calls as [|c calls IH]; intros self Hall.
  - simpl. split; [reflexivity|]. split; [lia | reflexivity].
  - apply Forall_cons in Hall. destruct Hall as [Hc Hall].
    specialize (IH (Planning.exec self c) Hall).
    pose proof (exec_keeps_length self c Hc) as Hlen.
    pose proof (exec_cursor self c Hc) as Hcur. cbv zeta in Hcur.
    destruct IH as (IHlen & IHle & IHstop).
    unfold Planning.exec_all in *. simpl.
    rewrite Hlen in *.
    split; [exact IHlen|]. split; [lia|].
    intros Hstop. apply Z.ltb_ge in Hstop.
    destruct Hcur as [Heq|[Heq Hlt]]; [|lia].
    rewrite IHstop; [exact Heq|].
    apply Z.ltb_ge. lia.
Qed.

(** C6: [advance_step] moves the cursor by one and answers true exactly when
    [cursor + 1 < len(steps)], and otherwise answers false and changes
    nothing. Hence, along any sequence of calls that sets no new plan
    (repeated [advance_step], also mixed with [add_info] and
    [update_plan_step]), the cursor never decreases, and once [advance_step]
    has answered false it answers false after every such sequence. *)
Theorem C6_advance_step_monotonic (self : Planning.t) :
  let i := Planning.current_step_index self in
  let n := Z.of_nat (length (Planning.plan_steps self)) in
  ((i + 1 < n)%Z ->
   Planning.advance_step self
   = (Planning.mk (Planning.requirement self) (Planning.info_list self)
                  (Planning.plan_steps self) (i + 1)%Z, true))
  /\ (~ (i + 1 < n)%Z -> Planning.advance_step self = (self, false))
  /\ (snd (Planning.advance_step self) = true <-> (i + 1 < n)%Z)
  /\ (forall calls,
         Forall (fun c => Planning.sets_plan c = false) calls ->
         (i <= Planning.current_step_index (Planning.exec_all self calls))%Z)
  /\ (snd (Planning.advance_step self) = false ->
      forall calls,
        Forall (fun c => Planning.sets_plan c = false) calls ->
        snd (Planning.advance_step (Planning.exec_all self calls)) = false).
Proof.
  cbv zeta. unfold Planning.advance_step.
  destruct (Z.ltb_spec (Planning.current_step_index self + 1)
                       (Z.of_nat (length (Planning.plan_steps self))))
    as [Hlt|Hge]; simpl.
  - split; [reflexivity|]. split; [tauto|]. split; [tauto|].
    split; [|discriminate].
    intros calls Hall. now apply exec_all_monotone.
  - split; [lia|]. split; [reflexivity|]. split; [split; [discriminate|lia]|].
    split; [intros calls Hall; now apply exec_all_monotone|].
    intros _ calls Hall.
    destruct (exec_all_monotone calls self Hall) as (Hlen & _ & Hstop).
    rewrite Hlen, Hstop by (apply Z.ltb_ge; lia).
    destruct (Z.ltb_spec (Planning.current_step_index self + 1)
                         (Z.of_nat (length (Planning.plan_steps self))));
      [lia | reflexivity].
Qed.

(** C8: every operation of the plan keeps [cursor < len(steps)] whenever
    [cursor >= 0]; it leaves the step list as it is, or replaces it by the
    list it is given (the two setters), or overwrites one index in range, so
    that the length and every other index stay; and the observations it
    leaves extend the ones it found, so their number never decreases. The
    plan of a fresh run satisfies the invariant. *)
Theorem C8_operations_preserve_invariant
        (self : Planning.t) (c : Planning.call)
        (Hinv : Planning.cursor_in_range self) :
  let self' := Planning.exec self c in
  Planning.cursor_in_range self'
  /\ (Planning.plan_steps self' = Planning.plan_steps self
      \/ (exists steps, c = Planning.SetPlanSteps steps
                        /\ Planning.plan_steps self' = steps)
      \/ (exists text, c = Planning.SetPlanStepsFromText text
                       /\ Planning.plan_steps self' = Planning.parse_steps text)
      \/ (exists index step,
             c = Planning.UpdatePlanStep index step
             /\ (0 <= index < Z.of_nat (length (Planning.plan_steps self)))%Z
             /\ Planning.plan_steps self'
                = <[Z.to_nat index := step]> (Planning.plan_steps self)
             /\ length (Planning.plan_steps self')
                = length (Planning.plan_steps self)
             /\ forall j, j <> Z.to_nat index ->
                          Planning.plan_steps self' !! j
                          = Planning.plan_steps self !! j))
  /\ Planning.info_list self `prefix_of` Planning.info_list self'
  /\ (length (Planning.info_list self) <= length (Planning.info_list self'))%nat
  /\ forall requirement, Planning.cursor_in_range (Planning.init requirement).
Proof.
  cbv zeta. unfold Planning.cursor_in_range in *.
  assert (Hinit : forall requirement : str,
             (0 <= Planning.current_step_index (Planning.init requirement) ->
              Planning.current_step_index (Planning.init requirement)
              < Z.of_nat (length (Planning.plan_steps (Planning.init requirement))))%Z)
    by (intros requirement; simpl; lia).
  assert (Hpre : Planning.info_list self `prefix_of` Planning.info_list self)
    by reflexivity.
  destruct c as [info|steps|text|index step|]; simpl.
  - split; [assumption|]. split; [now left|].
    split; [now apply prefix_app_r|]. split; [rewrite length_app; lia | exact Hinit].
  - split; [destruct steps; simpl; lia|]. split; [right; left; eauto|].
    split; [exact Hpre|]. split; [lia | exact Hinit].
  - split; [destruct (Planning.parse_steps text); simpl; lia|].
    split; [right; right; left; eauto|].
    split; [exact Hpre|]. split; [lia | exact Hinit].
  - unfold Planning.update_plan_step.
    destruct (Z.leb_spec 0 index) as [H0|H0];
      destruct (Z.ltb_spec index (Z.of_nat (length (Planning.plan_steps self))))
        as [H1|H1]; simpl;
      try (split; [assumption|]; split; [now left|];
           split; [exact Hpre|]; split; [lia | exact Hinit]).
    split; [rewrite length_insert; assumption|].
    split; [|split; [exact Hpre|]; split; [lia | exact Hinit]].
    right; right; right. exists index, step.
    split; [reflexivity|]. split; [lia|]. split; [reflexivity|].
    split; [apply length_insert|].
    intros j Hj. apply list_lookup_insert_ne. congruence.
  - unfold Planning.advance_step.
    destruct (Z.ltb_spec (Planning.current_step_index self + 1)
                         (Z.of_nat (length (Planning.plan_steps self))));
      simpl; (split; [first [assumption | lia]|]; split; [now left|];
              split; [exact Hpre|]; split; [lia | exact Hinit]).
Qed.

Lemma C8_operations_preserve_invariant_witness :
  let self := Planning.mk (utf8 "上海天气") [utf8 "晴"]
                          [utf8 "查天气"; utf8 "查景点"] 1 in
  let self' := Planning.exec self (Planning.UpdatePlanStep 0 (utf8 "查路线")) in
  Planning.cursor_in_range self
  /\ Planning.cursor_in_range self'
  /\ Planning.plan_steps self' = [utf8 "查路线"; utf8 "查景点"]
  /\ Planning.info_list self' = [utf8 "晴"].
Proof.
  assert (Hinv : Planning.cursor_in_range
                   (Planning.mk (utf8 "上海天气") [utf8 "晴"]
                                [utf8 "查天气"; utf8 "查景点"] 1)).
  { unfold Planning.cursor_in_range. simpl. lia. }
  split; [exact Hinv|].
  split; [|split; reflexivity].
  exact (proj1 (C8_operations_preserve_invariant _
                  (Planning.UpdatePlanStep 0 (utf8 "查路线")) Hinv)).
Defined.

(** ** Conversion of tool descriptors *)

Lemma tool_of_openai_param_convert (tool : Tool.t) :
  tool_of_openai_param (convert_tool_to_openai_param tool) = Some tool.
Proof. destruct tool as [n [d|] schema]; reflexivity. Qed.

(** C9: the wire record of a descriptor has type "function" and, under
    "function", the name, the description and, as "parameters", the input
    schema of the descriptor, each unchanged; the descriptor is recovered from
    its wire record, so the conversion loses nothing; and the conversion of a
    list converts each element in place, keeping length and order. *)
Theorem C9_convert_tool_round_trip (tool : Tool.t) (tools : list Tool.t) :
  let param := convert_tool_to_openai_param tool in
  getitem param (utf8 "type") = Ok (JStr (utf8 "function"))
  /\ (exists func,
         getitem param (utf8 "function") = Ok func
         /\ getitem func (utf8 "name") = Ok (JStr (Tool.name tool))
         /\ getitem func (utf8 "description")
            = Ok (of_optional (Tool.description tool))
         /\ getitem func (utf8 "parameters") = Ok (Tool.inputSchema tool))
  /\ tool_of_openai_param param = Some tool
  /\ (forall other, convert_tool_to_openai_param other = param -> other = tool)
  /\ convert_tools_to_openai_params tools
     = map convert_tool_to_openai_param tools
  /\ length (convert_tools_to_openai_params tools) = length tools
  /\ (forall i, convert_tools_to_openai_params tools !! i
                = convert_tool_to_openai_param <$> tools !! i)
  /\ omap tool_of_openai_param (convert_tools_to_openai_params tools) = tools.
Proof.
  cbv zeta.
  split; [reflexivity|].
  split; [eexists; repeat split; reflexivity|].
  split; [apply tool_of_openai_param_convert|].
  split.
  { intros other Heq.
    apply (f_equal tool_of_openai_param) in Heq.
    rewrite !tool_of_openai_param_convert in Heq. congruence. }
  split; [reflexivity|].
  split; [apply length_map|].
  split.
  - intros i. revert i. unfold convert_tools_to_openai_params.
    induction tools as [|t ts IH]; intros [|i]; simpl; auto.
  - unfold convert_tools_to_openai_params.
    induction tools as [|t ts IH]; [reflexivity|].
    cbn -[tool_of_openai_param convert_tool_to_openai_param].
    rewrite tool_of_openai_param_convert. now rewrite IH.
Qed.

(** ** Reasoning about computations *)

Lemma bind_unfold {A B} (m : M A) (k : A -> M B) (s : state) :
  bind m k s
  = match outcome_of (m s) with
    | Ok a =>
        (log_of (m s) ++ log_of (k a (state_of (m s))),
         state_of (k a (state_of (m s))),
         outcome_of (k a (state_of (m s))))
    | Raise e => (log_of (m s), state_of (m s), Raise e)
    end.
Proof.
  unfold bind, log_of, state_of, outcome_of.
  destruct (m s) as [[log s'] [a|e]]; simpl; [|reflexivity].
  destruct (k a s') as [[log' s''] r]; reflexivity.
Qed.

Section Bounded.

Variable P : action -> bool.

Lemma bounded_ret {A} (a : A) : bounded P 0 (ret a).
Proof. intros s. simpl. lia. Qed.

Lemma bounded_raise {A} (e : exn) : bounded P 0 (@raise A e).
Proof. intros s. simpl. lia. Qed.

Lemma bounded_lift {A} (r : res A) : bounded P 0 (lift r).
Proof. intros s. simpl. lia. Qed.

Lemma bounded_emit (a : action) : P a = false -> bounded P 0 (emit a).
Proof. intros H s. simpl. rewrite H. simpl. lia. Qed.

Lemma bounded_emit_1 (a : action) : bounded P 1 (emit a).
Proof. intros s. simpl. destruct (P a); simpl; lia. Qed.

Lemma bounded_get_planning : bounded P 0 get_planning.
Proof. intros s. simpl. lia. Qed.

Lemma bounded_put_planning p : bounded P 0 (put_planning p).
Proof. intros s. simpl. lia. Qed.

Lemma bounded_get_client : bounded P 0 get_client.
Proof. intros s. simpl. lia. Qed.

Lemma bounded_put_client c : bounded P 0 (put_client c).
Proof. intros s. simpl. lia. Qed.

Lemma bounded_next_chat_call : bounded P 0 next_chat_call.
Proof. intros s. simpl. lia. Qed.

Lemma bounded_bind {A B} (n1 n2 : nat) (m : M A) (k : A -> M B) :
  bounded P n1 m -> (forall a, bounded P n2 (k a)) ->
  bounded P (n1 + n2) (bind m k).
Proof.
  intros Hm Hk s. rewrite bind_unfold.
  specialize (Hm s).
  destruct (outcome_of (m s)) as [a|e]; unfold log_of at 1; simpl.
  - specialize (Hk a (state_of (m s))).
    rewrite List.filter_app, length_app. lia.
  - fold (log_of (m s)). lia.
Qed.

Lemma bounded_bind_0 {A B} (m : M A) (k : A -> M B) :
  bounded P 0 m -> (forall a, bounded P 0 (k a)) -> bounded P 0 (bind m k).
Proof. intros Hm Hk. exact (bounded_bind 0 0 m k Hm Hk). Qed.

Lemma bounded_weaken {A} (n n' : nat) (m : M A) :
  (n <= n')%nat -> bounded P n m -> bounded P n' m.
Proof. intros Hle Hm s. specialize (Hm s). lia. Qed.

End Bounded.

Create HintDb bounded.

#[local] Hint Resolve bounded_ret bounded_raise bounded_lift
  bounded_get_planning bounded_put_planning bounded_get_client
  bounded_put_client bounded_next_chat_call bounded_bind_0 : bounded.

(** ** The dispatch guard *)

Lemma registered_names_converted (raw_tools : list Tool.t) :
  registered_names (convert_tools_to_openai_params raw_tools)
  = match raw_tools with
    | [] => Ok []
    | _ :: _ => Raise (Exn KeyError (utf8 "name"))
    end.
Proof. destruct raw_tools; reflexivity. Qed.

Lemma known_names_converted (raw_tools : list Tool.t) :
  known_names (convert_tools_to_openai_params raw_tools)
  = map Tool.name raw_tools.
Proof.
  unfold known_names, convert_tools_to_openai_params.
  induction raw_tools as [|t ts IH]; [reflexivity|].
  cbn -[tool_of_openai_param convert_tool_to_openai_param].
  rewrite tool_of_openai_param_convert. simpl. now rewrite IH.
Qed.

(** What [call_tool] does from a state whose cache was written by
    [list_tools]: it raises, after at most the request for the tool list, and
    touches neither the plan nor the count of model requests. *)
Lemma call_tool_cases (env : Env) (tool_name : str) (params : json) (s : state) :
  cache_from_list_tools (gaode_client s) ->
  let r := call_tool env tool_name params s in
  (exists e, outcome_of r = Raise e)
  /\ (log_of r = []
      \/ (GaoDeMCPClient._tools (gaode_client s) = []
          /\ GaoDeMCPClient.session (gaode_client s) = true
          /\ log_of r = [SessionListTools]))
  /\ planning (state_of r) = planning s
  /\ chat_calls (state_of r) = chat_calls s
  /\ cache_from_list_tools (gaode_client (state_of r)).
Proof.
  destruct s as [p [key sess cache] n]. intros [raw Hraw]. simpl in Hraw.
  subst cache. cbv zeta. unfold call_tool.
  destruct sess.
  - destruct raw as [|t raw].
    + unfold list_tools, bind, get_client, put_client, emit, lift, ret, raise.
      simpl. destruct (session_list_tools env) as [[|t' raw']|e]; simpl.
      * split; [eauto|]. split; [right; auto|]. repeat split. now exists [].
      * split; [eauto|]. split; [right; auto|]. repeat split.
        now exists (t' :: raw').
      * split; [eauto|]. split; [right; auto|]. repeat split. now exists [].
    + unfold bind, get_client, lift, ret, raise. simpl.
      split; [eauto|]. split; [now left|]. repeat split. now exists (t :: raw).
  - unfold bind, get_client, raise. simpl.
    split; [eauto|]. split; [now left|]. repeat split. now exists raw.
Qed.

(** With an empty catalog the guard answers "not registered". *)
Lemma call_tool_empty_catalog (env : Env) (tool_name : str) (params : json)
      (s : state) :
  GaoDeMCPClient.session (gaode_client s) = true ->
  GaoDeMCPClient._tools (gaode_client s) = [] ->
  session_list_tools env = Ok [] ->
  outcome_of (call_tool env tool_name params s)
  = Raise (not_registered tool_name).
Proof.
  destruct s as [p [key sess cache] n]. simpl. intros -> -> Hlist.
  unfold call_tool, list_tools, bind, get_client, put_client, emit, lift,
    ret, raise. simpl. rewrite Hlist. reflexivity.
Qed.

Lemma handle_tool_call_cases (env : Env) (tool_call : ToolCall) (s : state) :
  cache_from_list_tools (gaode_client s) ->
  let r := handle_tool_call env tool_call s in
  (exists e, outcome_of r = Raise e)
  /\ events (log_of r) = [tool_call_event tool_call]
  /\ invocations (log_of r) = []
  /\ planning (state_of r) = planning s
  /\ chat_calls (state_of r) = chat_calls s.
Proof.
  intros Hcache. cbv zeta. unfold handle_tool_call.
  rewrite bind_unfold. cbn [emit outcome_of log_of state_of fst snd].
  rewrite bind_unfold. unfold loads.
  destruct (json_loads env (function_arguments tool_call)) as [params|].
  - cbn [ret outcome_of log_of state_of fst snd].
    rewrite bind_unfold.
    destruct (call_tool_cases env (function_name tool_call) params s Hcache)
      as ([e He] & Hlog & Hp & Hn & _).
    rewrite He. cbn [outcome_of log_of state_of fst snd].
    split; [eauto|].
    destruct Hlog as [Hlog|(_ & _ & Hlog)]; rewrite Hlog; simpl; auto.
  - cbn [raise outcome_of log_of state_of fst snd]. simpl. eauto 6.
Qed.

Lemma handle_tool_calls_cases (env : Env) (tool_call : ToolCall)
      (rest : list ToolCall) (s : state) :
  cache_from_list_tools (gaode_client s) ->
  let r := handle_tool_calls env (tool_call :: rest) s in
  (exists e, outcome_of r = Raise e)
  /\ events (log_of r) = [tool_call_event tool_call]
  /\ invocations (log_of r) = []
  /\ planning (state_of r) = planning s
  /\ chat_calls (state_of r) = chat_calls s.
Proof.
  intros Hcache. cbv zeta. simpl handle_tool_calls. rewrite bind_unfold.
  destruct (handle_tool_call_cases env tool_call s Hcache)
    as ([e He] & Hev & Hinv & Hp & Hn).
  rewrite He. cbn [outcome_of log_of state_of fst snd]. eauto 6.
Qed.




(** ** The loop *)

Ltac bounded0 :=
  lazymatch goal with
  | |- bounded _ 0 (bind _ _) =>
      apply bounded_bind_0; [bounded0 | intros ?; bounded0]
  | |- bounded _ 0 (emit _) => apply bounded_emit; reflexivity
  | |- bounded _ 0 (match ?x with _ => _ end) => destruct x; bounded0
  | |- _ => solve [auto with bounded]
  end.

Lemma LLMClient_call_unfold (env : Env) (messages : list message_param)
      (tools : option (list json)) (s : state) :
  LLMClient_call env messages tools s
  = ([ChatCreate messages tools], bump s,
     match chat_create env (chat_calls s) messages tools with
     | inl e => Raise (Exn LLMInvokeError (utf8 "模型调用异常：" ++ e))
     | inr response => Ok response
     end).
Proof.
  unfold LLMClient_call, bind, next_chat_call, emit, ret, raise, bump. simpl.
  destruct (chat_create env (chat_calls s) messages tools); reflexivity.
Qed.

Section RoundRequests.

Variable env : Env.

Lemma LLMClient_call_plain messages :
  bounded is_round_request 0 (LLMClient_call env messages None).
Proof. intros s. rewrite LLMClient_call_unfold. simpl. lia. Qed.

Lemma last_choice_bounded result :
  bounded is_round_request 0 (last_choice result).
Proof. unfold last_choice. bounded0. Qed.

Lemma call_tool_bounded tool_name params :
  bounded is_round_request 0 (call_tool env tool_name params).
Proof. unfold call_tool, list_tools. bounded0. Qed.

Hint Resolve LLMClient_call_plain last_choice_bounded call_tool_bounded
  : bounded.

Lemma handle_tool_calls_bounded calls :
  bounded is_round_request 0 (handle_tool_calls env calls).
Proof.
  induction calls as [|c calls IH]; simpl; [bounded0|].
  apply bounded_bind_0; [|intros _; exact IH].
  unfold handle_tool_call, loads, modify_planning. bounded0.
Qed.

Hint Resolve handle_tool_calls_bounded : bounded.




(** The shape of a round: two events, the request with the catalog, and
    then the rest, which makes no such request. *)
Lemma round_unfold tools s :
  let p := planning s in
  let head := [Yield SEPARATOR;
               Yield (str_of_step (Planning.get_current_step p));
               ChatCreate (user_message (Planning.render p)) (Some tools)] in
  round env tools s
  = match chat_create env (chat_calls s)
                      (user_message (Planning.render p)) (Some tools) with
    | inl e =>
        (head, bump s, Raise (Exn LLMInvokeError (utf8 "模型调用异常：" ++ e)))
    | inr response =>
        match last response with
        | None =>
            (head, bump s, Raise (Exn IndexError (utf8 "list index out of range")))
        | Some c =>
            let r := after_reply env c (bump s) in
            (head ++ log_of r, state_of r, outcome_of r)
        end
    end.
Proof.
  cbv zeta. unfold round.
  rewrite bind_unfold. cbn [emit get_planning outcome_of log_of state_of fst snd].
  rewrite bind_unfold. cbn [emit get_planning outcome_of log_of state_of fst snd].
  rewrite bind_unfold. cbn [emit get_planning outcome_of log_of state_of fst snd].
  rewrite bind_unfold. rewrite LLMClient_call_unfold.
  cbn [outcome_of log_of state_of fst snd].
  destruct (chat_create env (chat_calls s) _ _) as [e|response];
    [reflexivity|].
  rewrite bind_unfold. unfold last_choice.
  destruct (last response) as [c|]; reflexivity.
Qed.






End RoundRequests.


Lemma connect_unfold (env : Env) {A} (body : M A) (s : state) :
  log_of (connect env body s)
  = match session_open env with
    | Some _ => [SessionOpen]
    | None => [SessionOpen] ++ log_of (body (opened s)) ++ [SessionClose]
    end
  /\ outcome_of (connect env body s)
     = match session_open env with
       | Some e => Raise e
       | None => outcome_of (body (opened s))
       end
  /\ (session_open env = None ->
      planning (state_of (connect env body s))
      = planning (state_of (body (opened s))))
  /\ (session_open env <> None -> state_of (connect env body s) = s).
Proof.
  unfold connect. rewrite bind_unfold.
  cbn [emit outcome_of log_of state_of fst snd].
  destruct (session_open env) as [e|].
  - cbn [raise outcome_of log_of state_of fst snd].
    repeat split; congruence.
  - rewrite bind_unfold. cbn [get_client outcome_of log_of state_of fst snd].
    rewrite bind_unfold. cbn [put_client outcome_of log_of state_of fst snd].
    fold (opened s).
    destruct (body (opened s)) as [[log s'] [a|e]];
      cbn [outcome_of log_of state_of fst snd planning app];
      repeat split; congruence.
Qed.





(** The same error ends a run that did reach "no next step" when the reply
    to the final request has an empty text: here after one round. *)
Lemma empty_final_answer_reports_exhaustion :
  let r := MCPAgent.run Scenario.empty_answer MCPAgent.init Scenario.request in
  rounds_executed (log_of r) = 1%nat
  /\ In NO_NEXT_STEP (events (log_of r))
  /\ outcome_of r = Raise EXHAUSTED.
Proof.
  cbv zeta. split; [vm_compute; reflexivity|].
  split; [vm_compute; tauto | vm_compute; reflexivity].
Qed.

(** ** Rounds without tool requests *)

Lemma control_unfold (env : Env) (s : state) :
  control env s
  = if snd (Planning.advance_step (planning s))
    then ([], with_planning s (fst (Planning.advance_step (planning s))), Ok None)
    else
      ([Yield NO_NEXT_STEP; ChatCreate (final_request (planning s)) None],
       bump s,
       match chat_create env (chat_calls s) (final_request (planning s)) None with
       | inl e => Raise (Exn LLMInvokeError (utf8 "模型调用异常：" ++ e))
       | inr response =>
           match last response with
           | Some c => Ok (Some (content c))
           | None => Raise (Exn IndexError (utf8 "list index out of range"))
           end
       end).
Proof.
  unfold control, advance.
  rewrite bind_unfold, bind_unfold.
  cbn [get_planning outcome_of log_of state_of fst snd].
  unfold Planning.advance_step.
  destruct (_ <? _)%Z.
  - rewrite bind_unfold. reflexivity.
  - rewrite bind_unfold.
    cbn [put_planning ret outcome_of log_of state_of fst snd].
    rewrite bind_unfold. cbn [emit outcome_of log_of state_of fst snd].
    rewrite bind_unfold. cbn [get_planning outcome_of log_of state_of fst snd].
    rewrite bind_unfold, LLMClient_call_unfold.
    cbn [outcome_of log_of state_of fst snd planning chat_calls].
    destruct s as [p c n]. unfold bump. cbn [planning gaode_client chat_calls].
    match goal with
    | |- context [chat_create env n ?m None] =>
        destruct (chat_create env n m None) as [e|response]
    end; [reflexivity|].
    rewrite bind_unfold. unfold last_choice.
    destruct (last response); reflexivity.
Qed.

Lemma advance_step_frame (p : Planning.t) :
  Planning.info_list (fst (Planning.advance_step p)) = Planning.info_list p
  /\ Planning.plan_steps (fst (Planning.advance_step p)) = Planning.plan_steps p
  /\ Planning.requirement (fst (Planning.advance_step p))
     = Planning.requirement p.
Proof.
  unfold Planning.advance_step. destruct (_ <? _)%Z; repeat split.
Qed.

Lemma control_spec (env : Env) (s : state) :
  let k := control env s in
  Planning.info_list (planning (state_of k)) = Planning.info_list (planning s)
  /\ Planning.plan_steps (planning (state_of k))
     = Planning.plan_steps (planning s)
  /\ (events (log_of k) = [] \/ events (log_of k) = [NO_NEXT_STEP])
  /\ (forall answer,
         outcome_of k = Ok (Some answer) ->
         exists response c,
           chat_create env (chat_calls s) (final_request (planning s)) None
           = inr response
           /\ last response = Some c
           /\ answer = content c).
Proof.
  cbv zeta. rewrite control_unfold.
  destruct (advance_step_frame (planning s)) as (Hi & Hs & _).
  destruct (snd (Planning.advance_step (planning s))).
  - cbn [outcome_of log_of state_of fst snd with_planning planning events].
    split; [exact Hi|]. split; [exact Hs|]. split; [now left | discriminate].
  - cbn [outcome_of log_of state_of fst snd bump planning events].
    split; [reflexivity|]. split; [reflexivity|]. split; [now right|].
    intros answer.
    destruct (chat_create env (chat_calls s) (final_request (planning s)) None)
      as [e|response]; [discriminate|].
    destruct (last response) as [c|] eqn:Hlast; [|discriminate].
    intros [= <-]. exists response, c. auto.
Qed.

Lemma dispatch_nothing (env : Env) (c : Choice) (s : state) :
  str_eqb (finish_reason c) TOOL_CALLS = false \/ tool_calls c = [] ->
  dispatch env c s = ([], s, Ok tt).
Proof.
  unfold dispatch. intros [->| ->]; [reflexivity|].
  destruct (str_eqb _ _); reflexivity.
Qed.

Lemma round_without_tools (env : Env) (tools : list json) (s : state)
      (response : ChatCompletion) (c : Choice) :
  chat_create env (chat_calls s) (user_message (Planning.render (planning s)))
              (Some tools) = inr response ->
  last response = Some c ->
  str_eqb (finish_reason c) TOOL_CALLS = false \/ tool_calls c = [] ->
  let k := control env (bump s) in
  round env tools s
  = ([Yield SEPARATOR;
      Yield (str_of_step (Planning.get_current_step (planning s)));
      ChatCreate (user_message (Planning.render (planning s))) (Some tools)]
     ++ log_of k,
     state_of k, outcome_of k).
Proof.
  intros Hreply Hlast Hplain. cbv zeta.
  rewrite round_unfold. cbv zeta. rewrite Hreply, Hlast.
  unfold after_reply. rewrite bind_unfold, (dispatch_nothing env c _ Hplain).
  reflexivity.
Qed.

(** C10: in a round whose reply has a finish reason other than "tool_calls",
    everything after the reply is the loop control alone, run on the state as
    it was: the result of the round does not mention the reply, so its message
    content goes nowhere. The observations and the steps of the plan are left
    as they were; the events of the round are the separator, the current step
    and at most "no next step"; and a final answer, when the round produces
    one, is the content of the reply to the separate final request. *)
Theorem C10_plain_reply_is_discarded
        (env : Env) (tools : list json) (s : state)
        (response : ChatCompletion) (c : Choice)
        (Hreply : chat_create env (chat_calls s)
                    (user_message (Planning.render (planning s))) (Some tools)
                  = inr response)
        (Hlast : last response = Some c)
        (Hplain : finish_reason c <> TOOL_CALLS) :
  let r := round env tools s in
  let k := control env (bump s) in
  r = ([Yield SEPARATOR;
        Yield (str_of_step (Planning.get_current_step (planning s)));
        ChatCreate (user_message (Planning.render (planning s))) (Some tools)]
       ++ log_of k,
       state_of k, outcome_of k)
  /\ Planning.info_list (planning (state_of r)) = Planning.info_list (planning s)
  /\ Planning.plan_steps (planning (state_of r)) = Planning.plan_steps (planning s)
  /\ (exists rest,
         events (log_of r)
         = [SEPARATOR; str_of_step (Planning.get_current_step (planning s))]
           ++ rest
         /\ (rest = [] \/ rest = [NO_NEXT_STEP]))
  /\ invocations (log_of r) = []
  /\ (forall answer,
         outcome_of r = Ok (Some answer) ->
         exists final_response final_choice,
           chat_create env (S (chat_calls s)) (final_request (planning s)) None
           = inr final_response
           /\ last final_response = Some final_choice
           /\ answer = content final_choice).
Proof.
  cbv zeta.
  assert (Hne : str_eqb (finish_reason c) TOOL_CALLS = false).
  { unfold str_eqb. apply bool_decide_eq_false. exact Hplain. }
  rewrite (round_without_tools env tools s response c Hreply Hlast (or_introl Hne)).
  destruct (control_spec env (bump s)) as (Hi & Hs & Hev & Hans).
  cbn [outcome_of log_of state_of fst snd].
  split; [reflexivity|]. split; [exact Hi|]. split; [exact Hs|].
  split; [|split].
  - exists (events (log_of (control env (bump s)))). split; [reflexivity|exact Hev].
  - rewrite control_unfold.
    destruct (snd (Planning.advance_step (planning (bump s)))); reflexivity.
  - exact Hans.
Qed.

Lemma C10_plain_reply_witness :
  let s := Scenario.connected [] (Planning.init Scenario.request) in
  let r := round Scenario.empty_plan (MCPAgent.tools MCPAgent.init) s in
  Planning.info_list (planning (state_of r)) = []
  /\ Planning.plan_steps (planning (state_of r)) = [].
Proof.
  cbv zeta.
  pose proof (C10_plain_reply_is_discarded
                Scenario.empty_plan (MCPAgent.tools MCPAgent.init)
                (Scenario.connected [] (Planning.init Scenario.request))
                [ {| finish_reason := utf8 "stop"; content := [];
                     tool_calls := [] |} ]
                {| finish_reason := utf8 "stop"; content := [];
                   tool_calls := [] |}
                eq_refl eq_refl) as H.
  destruct H as (_ & Hi & Hs & _).
  - vm_compute. discriminate.
  - split; [exact Hi | exact Hs].
Defined.

(** ** The empty plan *)

Lemma planning_phase_unfold (env : Env) (tools : list json) (user_input : str)
      (s : state) (response : ChatCompletion) (c : Choice) :
  chat_create env (chat_calls s) (planning_request env tools user_input) None
  = inr response ->
  last response = Some c ->
  let p := Planning.set_plan_steps_from_text (Planning.init user_input)
                                             (content c) in
  planning_phase env tools user_input s
  = ([ChatCreate (planning_request env tools user_input) None;
      Yield PLAN_HEADER; Yield (Planning.render p); Yield SEPARATOR],
     with_planning (bump s) p, Ok tt).
Proof.
  intros Hreply Hlast. cbv zeta. unfold planning_phase, modify_planning.
  rewrite bind_unfold. cbn [put_planning outcome_of log_of state_of fst snd].
  rewrite bind_unfold, LLMClient_call_unfold.
  cbn [outcome_of log_of state_of fst snd chat_calls].
  rewrite Hreply.
  rewrite bind_unfold. unfold last_choice. rewrite Hlast.
  cbn [ret outcome_of log_of state_of fst snd].
  repeat (rewrite bind_unfold;
          cbn [ret emit get_planning put_planning outcome_of log_of state_of
               fst snd planning bump]).
  reflexivity.
Qed.

(** The plan in which nothing is planned. *)
Lemma empty_plan_is_init (user_input text : str) :
  Planning.parse_steps text = [] ->
  Planning.set_plan_steps_from_text (Planning.init user_input) text
  = Planning.init user_input.
Proof.
  intros H. unfold Planning.set_plan_steps_from_text. rewrite H. reflexivity.
Qed.

(** C5, as the code has it: with an empty plan the first round still asks the
    model, with the tool catalog, and acts on the requests of its reply. When
    that reply carries no tool request, the round goes on to "no next step"
    and the final request, which is built from the plan with its empty list of
    observations: the log of the run starts as written below, and all that
    follows is the closing of the session and, with a non-empty answer, the
    final-answer event. Exactly one round is executed, nothing is asked of the
    tool session, and the plan ends with no observation. *)
Theorem C5_empty_plan_finalizes_in_first_round
        (env : Env) (self : MCPAgent.t) (user_input : str)
        (plan_reply round_reply : ChatCompletion) (c0 c1 : Choice)
        (Hplan : chat_create env 0
                   (planning_request env (MCPAgent.tools self) user_input) None
                 = inr plan_reply)
        (Hc0 : last plan_reply = Some c0)
        (Hempty : Planning.parse_steps (content c0) = [])
        (Hopen : session_open env = None)
        (Hround : chat_create env 1
                    (user_message (Planning.render (Planning.init user_input)))
                    (Some (MCPAgent.tools self))
                  = inr round_reply)
        (Hc1 : last round_reply = Some c1)
        (Hplain : finish_reason c1 <> TOOL_CALLS \/ tool_calls c1 = []) :
  let p := Planning.init user_input in
  let r := MCPAgent.run env self user_input in
  Planning.info_list p = []
  /\ (exists rest,
         log_of r
         = [ChatCreate (planning_request env (MCPAgent.tools self) user_input) None;
            Yield PLAN_HEADER; Yield (Planning.render p); Yield SEPARATOR;
            SessionOpen;
            Yield SEPARATOR; Yield (utf8 "None");
            ChatCreate (user_message (Planning.render p))
                       (Some (MCPAgent.tools self));
            Yield NO_NEXT_STEP;
            ChatCreate (final_request p) None] ++ rest
         /\ (rest = [SessionClose]
             \/ exists answer,
                 rest = [SessionClose; Yield (utf8 "最终答案：" ++ answer)]))
  /\ rounds_executed (log_of r) = 1%nat
  /\ List.filter is_session_request (log_of r) = []
  /\ Planning.info_list (planning (state_of r)) = [].
Proof.
  cbv zeta.
  assert (Hplain' : str_eqb (finish_reason c1) TOOL_CALLS = false
                    \/ tool_calls c1 = []).
  { destruct Hplain as [H|H]; [left|now right].
    unfold str_eqb. now apply bool_decide_eq_false. }
  unfold MCPAgent.run, run_from, plan_and_loop.
  set (s0 := MCPAgent.initial_state env user_input).
  rewrite bind_unfold, bind_unfold.
  rewrite (planning_phase_unfold env _ user_input s0 plan_reply c0 Hplan Hc0).
  rewrite (empty_plan_is_init _ _ Hempty).
  cbn [outcome_of log_of state_of fst snd].
  set (s1 := with_planning (bump s0) (Planning.init user_input)).
  destruct (connect_unfold env (rounds env (MCPAgent.tools self) max_rounds []) s1)
    as (Hlog & Hout & Hst & _).
  rewrite Hopen in Hlog, Hout. specialize (Hst Hopen).
  assert (Hr : round env (MCPAgent.tools self) (opened s1)
               = ([Yield SEPARATOR; Yield (utf8 "None");
                   ChatCreate (user_message
                                 (Planning.render (Planning.init user_input)))
                              (Some (MCPAgent.tools self));
                   Yield NO_NEXT_STEP;
                   ChatCreate (final_request (Planning.init user_input)) None],
                  bump (bump (opened s1)),
                  match chat_create env 2
                          (final_request (Planning.init user_input)) None with
                  | inl e => Raise (Exn LLMInvokeError (utf8 "模型调用异常：" ++ e))
                  | inr response =>
                      match last response with
                      | Some c => Ok (Some (content c))
                      | None =>
                          Raise (Exn IndexError (utf8 "list index out of range"))
                      end
                  end)).
  { rewrite (round_without_tools env _ (opened s1) round_reply c1 Hround Hc1 Hplain').
    rewrite control_unfold. reflexivity. }
  assert (Hrs : rounds env (MCPAgent.tools self) max_rounds [] (opened s1)
                = (log_of (round env (MCPAgent.tools self) (opened s1)),
                   bump (bump (opened s1)),
                   match outcome_of (round env (MCPAgent.tools self) (opened s1)) with
                   | Ok (Some answer) => Ok answer
                   | Ok None => Ok []
                   | Raise e => Raise e
                   end)).
  { change max_rounds with 6%nat. cbn [rounds]. rewrite bind_unfold, Hr.
    cbn [outcome_of log_of state_of fst snd].
    destruct (chat_create env 2 _ None) as [e|response]; [reflexivity|].
    destruct (last response); [|reflexivity].
    cbn [ret outcome_of log_of state_of fst snd]. now rewrite app_nil_r. }
  rewrite Hrs in Hlog, Hout, Hst. rewrite Hr in Hlog, Hout.
  cbn [outcome_of log_of state_of fst snd] in Hlog, Hout, Hst.
  rewrite Hlog, Hout.
  split; [reflexivity|].
  destruct (chat_create env 2 _ None) as [e|response].
  - cbn [outcome_of log_of state_of fst snd app].
    split; [exists [SessionClose]; split; [reflexivity | now left]|].
    split; [reflexivity|]. split; [reflexivity|]. now rewrite Hst.
  - destruct (last response) as [c|].
    + unfold finish. destruct (content c) as [|x answer].
      * cbn [truthy negb raise outcome_of log_of state_of fst snd app].
        split; [exists [SessionClose]; split; [reflexivity | now left]|].
        split; [reflexivity|]. split; [reflexivity|]. now rewrite Hst.
      * cbn [truthy negb emit outcome_of log_of state_of fst snd app].
        split; [eexists; split; [reflexivity | right; eexists; reflexivity]|].
        split; [reflexivity|]. split; [reflexivity|]. now rewrite Hst.
    + cbn [outcome_of log_of state_of fst snd app].
      split; [exists [SessionClose]; split; [reflexivity | now left]|].
      split; [reflexivity|]. split; [reflexivity|]. now rewrite Hst.
Qed.

Lemma C5_empty_plan_witness :
  let r := MCPAgent.run Scenario.empty_plan MCPAgent.init Scenario.request in
  rounds_executed (log_of r) = 1%nat
  /\ List.filter is_session_request (log_of r) = []
  /\ Planning.info_list (planning (state_of r)) = [].
Proof.
  cbv zeta.
  pose proof (C5_empty_plan_finalizes_in_first_round
                Scenario.empty_plan MCPAgent.init Scenario.request
                [ {| finish_reason := utf8 "stop"; content := [];
                     tool_calls := [] |} ]
                [ {| finish_reason := utf8 "stop"; content := utf8 "好";
                     tool_calls := [] |} ]
                {| finish_reason := utf8 "stop"; content := [];
                   tool_calls := [] |}
                {| finish_reason := utf8 "stop"; content := utf8 "好";
                   tool_calls := [] |}
                eq_refl eq_refl eq_refl eq_refl eq_refl eq_refl) as H.
  destruct H as (_ & _ & Hn & Hq & Hi).
  - left. vm_compute. discriminate.
  - split; [exact Hn|]. split; [exact Hq | exact Hi].
Defined.

(** C5 as stated fails: with an empty plan the loop does not go straight to
    the final answer. The first round asks the model with the tool catalog;
    here the reply asks for a tool with arguments that do not parse, and the
    run ends with that error, never reaching "no next step". *)
Lemma C5_empty_plan_round_still_dispatches :
  ~ (forall (env : Env) (self : MCPAgent.t) (user_input : str)
            (plan_reply : ChatCompletion) (c0 : Choice),
        chat_create env 0
          (planning_request env (MCPAgent.tools self) user_input) None
        = inr plan_reply ->
        last plan_reply = Some c0 ->
        Planning.parse_steps (content c0) = [] ->
        session_open env = None ->
        let r := MCPAgent.run env self user_input in
        In NO_NEXT_STEP (events (log_of r))
        /\ In (ChatCreate (final_request (Planning.init user_input)) None)
              (log_of r)).
Proof.
  intros H.
  destruct (H Scenario.empty_plan_bad_arguments MCPAgent.init Scenario.request
              [ {| finish_reason := utf8 "stop"; content := [];
                   tool_calls := [] |} ]
              {| finish_reason := utf8 "stop"; content := [];
                 tool_calls := [] |}
              eq_refl eq_refl eq_refl eq_refl) as [Hstop _].
  vm_compute in Hstop. intuition discriminate.
Qed.

(** ** A round with a tool request *)

(** C7, on the code: in the round of the one-step plan "查天气" the model
    asks for [maps_weather] with the arguments [{"city":"上海"}], a tool the
    session lists and arguments that parse. The loop yields the event that
    names the tool and its arguments, the client fetches the tool list, and
    the name check then raises [KeyError] on the key "name", which the
    converted records keep under "function": nothing is invoked, no
    observation is appended, and the run ends with that error. The same holds
    for the first request of any round, so that a round never gets to its
    second request. *)
Theorem C7_scenario_C_no_invocation :
  let env := Scenario.weather_round in
  let r := MCPAgent.run env MCPAgent.init Scenario.request in
  let call := {| function_name := utf8 "maps_weather";
                 function_arguments := Scenario.weather_args |} in
  In (utf8 "maps_weather")
     (known_names (catalog env (GaoDeMCPClient.init (GAODE_KEY env))))
  /\ json_loads env Scenario.weather_args = Some Scenario.weather_params
  /\ Planning.plan_steps (planning (state_of r)) = [utf8 "查天气"]
  /\ events (log_of r)
     = [PLAN_HEADER;
        Planning.render (Planning.mk Scenario.request [] [utf8 "查天气"] 0);
        SEPARATOR; SEPARATOR; utf8 "查天气"; tool_call_event call]
  /\ List.filter is_session_request (log_of r) = [SessionListTools]
  /\ invocations (log_of r) = []
  /\ Planning.info_list (planning (state_of r)) = []
  /\ outcome_of r = Raise (Exn KeyError (utf8 "name"))
  /\ (forall (env' : Env) (s : state) (first : ToolCall) (rest : list ToolCall),
         cache_from_list_tools (gaode_client s) ->
         let h := handle_tool_calls env' (first :: rest) s in
         (exists e, outcome_of h = Raise e)
         /\ events (log_of h) = [tool_call_event first]
         /\ invocations (log_of h) = []
         /\ planning (state_of h) = planning s).
Proof.
  cbv zeta.
  split; [vm_compute; now left|].
  split; [vm_compute; reflexivity|].
  split; [vm_compute; reflexivity|].
  split; [vm_compute; reflexivity|].
  split; [vm_compute; reflexivity|].
  split; [vm_compute; reflexivity|].
  split; [vm_compute; reflexivity|].
  split; [vm_compute; reflexivity|].
  intros env' s first rest Hcache.
  destruct (handle_tool_calls_cases env' first rest s Hcache)
    as (He & Hev & Hinv & Hp & _).
  auto.
Qed.

(** * Further properties of the code *)

(** ** The step plan in use *)

Lemma get_current_step_in_range (p : Planning.t) (i : nat) :
  Planning.current_step_index p = Z.of_nat i ->
  (i < length (Planning.plan_steps p))%nat ->
  Planning.get_current_step p = Planning.plan_steps p !! i.
Proof.
  intros Hi Hlt. unfold Planning.get_current_step. rewrite Hi.
  rewrite Nat2Z.id.
  destruct (Z.leb_spec 0 (Z.of_nat i)); [|lia].
  destruct (Z.ltb_spec (Z.of_nat i) (Z.of_nat (length (Planning.plan_steps p))));
    [reflexivity | lia].
Qed.

Lemma visit_from (fuel : nat) (p : Planning.t) (i : nat) :
  Planning.current_step_index p = Z.of_nat i ->
  (i < length (Planning.plan_steps p))%nat ->
  (length (Planning.plan_steps p) - i <= fuel)%nat ->
  visit fuel p = drop i (Planning.plan_steps p).
Proof.
  revert p i. induction fuel as [|fuel IH]; intros p i Hi Hlt Hfuel; [lia|].
  simpl. rewrite (get_current_step_in_range p i Hi Hlt).
  destruct (lookup_lt_is_Some_2 (Planning.plan_steps p) i Hlt) as [step Hstep].
  rewrite Hstep. rewrite (drop_S _ _ _ Hstep). f_equal.
  unfold Planning.advance_step. rewrite Hi.
  destruct (Z.ltb_spec (Z.of_nat i + 1)
                       (Z.of_nat (length (Planning.plan_steps p)))) as [Hn|Hn];
    simpl.
  - match goal with
    | |- visit fuel ?q = _ => apply (IH q (S i)); simpl; lia
    end.
  - symmetry. apply drop_ge. lia.
Qed.

(** Walking through a plan reads every step exactly once, in order: after
    [set_plan_steps], reading the current step and advancing while
    [advance_step] answers true lists the steps as they were given, and the
    same holds for the steps parsed from a text. *)
Theorem X1_visit_reads_every_step
        (self : Planning.t) (steps : list str) (fuel : nat)
        (Hfuel : (length steps <= fuel)%nat) :
  visit fuel (Planning.set_plan_steps self steps) = steps
  /\ forall plan_text,
       Planning.parse_steps plan_text = steps ->
       visit fuel (Planning.set_plan_steps_from_text self plan_text) = steps.
Proof.
  assert (H : visit fuel (Planning.set_plan_steps self steps) = steps).
  { destruct steps as [|step steps].
    - destruct fuel; reflexivity.
    - rewrite (visit_from fuel (Planning.set_plan_steps self (step :: steps))
                          0%nat); simpl; [reflexivity | reflexivity | lia | ].
      simpl in Hfuel. lia. }
  split; [exact H|].
  intros plan_text <-. exact H.
Qed.

Lemma X1_visit_witness :
  visit 6 (Planning.set_plan_steps_from_text (Planning.init [])
                                              (utf8 "查天气。查景点。"))
  = [utf8 "查天气"; utf8 "查景点"].
Proof.
  refine (proj2 (X1_visit_reads_every_step (Planning.init [])
                   [utf8 "查天气"; utf8 "查景点"] 6 _) _ _).
  - simpl. lia.
  - reflexivity.
Defined.

Lemma exec_well_formed (p : Planning.t) (c : Planning.call) :
  plan_well_formed p -> plan_well_formed (Planning.exec p c).
Proof.
  unfold plan_well_formed.
  destruct c as [info|steps|text|index step|]; simpl.
  - tauto.
  - intros _. destruct steps; simpl; [now left | right; lia].
  - intros _. destruct (Planning.parse_steps text); simpl; [now left | right; lia].
  - unfold Planning.update_plan_step.
    destruct (Z.leb_spec 0 index) as [H0|H0];
      destruct (Z.ltb_spec index (Z.of_nat (length (Planning.plan_steps p))))
        as [H1|H1]; simpl; try tauto.
    intros [[Hnil _]|Hin].
    + rewrite Hnil in H1. simpl in H1. lia.
    + right. rewrite length_insert. exact Hin.
  - unfold Planning.advance_step.
    destruct (Z.ltb_spec (Planning.current_step_index p + 1)
                         (Z.of_nat (length (Planning.plan_steps p)))) as [Hn|Hn];
      simpl; [|tauto].
    intros [[Hnil Hi]|Hin]; [|right; lia].
    rewrite Hnil, Hi in Hn. simpl in Hn. lia.
Qed.

Lemma exec_requirement (p : Planning.t) (c : Planning.call) :
  Planning.requirement (Planning.exec p c) = Planning.requirement p.
Proof.
  destruct c as [info|steps|text|index step|]; simpl; try reflexivity.
  - unfold Planning.update_plan_step. destruct (_ && _); reflexivity.
  - unfold Planning.advance_step. destruct (_ <? _)%Z; reflexivity.
Qed.

Lemma well_formed_current_step (p : Planning.t) :
  plan_well_formed p ->
  (Planning.get_current_step p = None <-> Planning.plan_steps p = []).
Proof.
  intros [[Hnil Hi]|Hin].
  - unfold Planning.get_current_step. rewrite Hi. simpl. tauto.
  - rewrite (get_current_step_in_range p
               (Z.to_nat (Planning.current_step_index p))) by lia.
    destruct (lookup_lt_is_Some_2 (Planning.plan_steps p)
                (Z.to_nat (Planning.current_step_index p))) as [x Hx]; [lia|].
    rewrite Hx. split; [discriminate|].
    intros Hnil. rewrite Hnil in Hin. simpl in Hin. lia.
Qed.

(** Whatever sequence of operations is applied to a fresh plan, the result
    either has no step and cursor [-1] or has its cursor on a step; so it has
    a current step exactly when it has steps, and its requirement is the one
    it was created with. *)
Theorem X2_plans_in_use_are_well_formed
        (requirement : str) (calls : list Planning.call) :
  let p := Planning.exec_all (Planning.init requirement) calls in
  plan_well_formed p
  /\ (Planning.get_current_step p = None <-> Planning.plan_steps p = [])
  /\ Planning.requirement p = requirement.
Proof.
  cbv zeta.
  assert (H : forall p0, plan_well_formed p0 ->
                         plan_well_formed (Planning.exec_all p0 calls)
                         /\ Planning.requirement (Planning.exec_all p0 calls)
                            = Planning.requirement p0).
  { unfold Planning.exec_all.
    induction calls as [|c calls IH]; intros p0 Hp0; simpl; [auto|].
    destruct (IH (Planning.exec p0 c) (exec_well_formed p0 c Hp0)) as [Hw Hr].
    split; [exact Hw|]. rewrite Hr. apply exec_requirement. }
  destruct (H (Planning.init requirement)) as [Hw Hr]; [now left|].
  split; [exact Hw|]. split; [now apply well_formed_current_step | exact Hr].
Qed.

(** [update_plan_step] writes in range and nowhere else: for an index in
    [0, len) the step is read back at that index, is the current step when
    the cursor is there, and cursor, observations and requirement stay; for
    any other index, negative ones included, it raises and changes
    nothing. *)
Theorem X3_update_plan_step_read_back
        (self : Planning.t) (index : Z) (step : str) :
  ((0 <= index < Z.of_nat (length (Planning.plan_steps self)))%Z ->
   exists self',
     Planning.update_plan_step self index step = Some self'
     /\ Planning.plan_steps self' !! Z.to_nat index = Some step
     /\ Planning.current_step_index self' = Planning.current_step_index self
     /\ Planning.info_list self' = Planning.info_list self
     /\ Planning.requirement self' = Planning.requirement self
     /\ (Planning.current_step_index self = index ->
         Planning.get_current_step self' = Some step))
  /\ ((index < 0 \/ Z.of_nat (length (Planning.plan_steps self)) <= index)%Z ->
      Planning.update_plan_step self index step = None).
Proof.
  unfold Planning.update_plan_step. split.
  - intros [H0 H1].
    destruct (Z.leb_spec 0 index); [|lia].
    destruct (Z.ltb_spec index (Z.of_nat (length (Planning.plan_steps self))));
      [|lia].
    simpl. eexists. split; [reflexivity|]. simpl.
    assert (Hread : <[Z.to_nat index:=step]> (Planning.plan_steps self)
                      !! Z.to_nat index = Some step)
      by (apply list_lookup_insert_eq; lia).
    split; [exact Hread|]. repeat split.
    intros Hcur.
    rewrite (get_current_step_in_range _ (Z.to_nat index)); simpl;
      [exact Hread | lia | rewrite length_insert; lia].
  - intros Hout.
    destruct (Z.leb_spec 0 index);
      destruct (Z.ltb_spec index (Z.of_nat (length (Planning.plan_steps self))));
      simpl; try reflexivity; lia.
Qed.

(** ** The planning prompt *)



(** ** The tool-session client *)

Lemma omap_tool_of_openai_param_convert (raw_tools : list Tool.t) :
  omap tool_of_openai_param (convert_tools_to_openai_params raw_tools)
  = raw_tools.
Proof.
  unfold convert_tools_to_openai_params.
  induction raw_tools as [|t ts IH]; [reflexivity|].
  cbn -[tool_of_openai_param convert_tool_to_openai_param].
  rewrite tool_of_openai_param_convert. now rewrite IH.
Qed.

(** [list_tools] asks the tool session on every call, whether or not the
    cache is filled: without a session it raises and sends nothing; with one
    it sends exactly one request, and then either stores the converted
    descriptors in the cache and returns that same list, from which the
    descriptors are read back, or passes the error of the session on and
    leaves the client as it was. The plan is never touched. *)
Theorem X5_list_tools_refreshes_cache (env : Env) (s : state) :
  let r := list_tools env s in
  (GaoDeMCPClient.session (gaode_client s) = false ->
   r = ([], s, Raise NOT_CONNECTED))
  /\ (GaoDeMCPClient.session (gaode_client s) = true ->
      log_of r = [SessionListTools]
      /\ planning (state_of r) = planning s
      /\ chat_calls (state_of r) = chat_calls s
      /\ match session_list_tools env with
         | Ok raw_tools =>
             outcome_of r = Ok (convert_tools_to_openai_params raw_tools)
             /\ GaoDeMCPClient._tools (gaode_client (state_of r))
                = convert_tools_to_openai_params raw_tools
             /\ GaoDeMCPClient.session (gaode_client (state_of r)) = true
             /\ omap tool_of_openai_param
                     (GaoDeMCPClient._tools (gaode_client (state_of r)))
                = raw_tools
         | Raise e => outcome_of r = Raise e /\ state_of r = s
         end).
Proof.
  cbv zeta. destruct s as [p [key sess cache] n]. simpl.
  unfold list_tools, bind, get_client, put_client, emit, lift, ret, raise.
  simpl. split; intros ->; simpl; [reflexivity|].
  destruct (session_list_tools env) as [raw|e]; simpl; [|auto].
  repeat split. apply omap_tool_of_openai_param_convert.
Qed.

(** [call_tool], case by case, from a client whose cache was written by
    [list_tools]: it never sends an invocation and never touches the plan.
    Without a session it raises the "use connect() first" error and sends
    nothing; with an empty cache it asks for the tool list once, and passes
    on the error of that request, or answers "not registered" when the list
    is empty, or raises [KeyError] on "name" when it is not; with a filled
    cache it raises that [KeyError] at once, whatever the name. *)
Theorem X6_call_tool_outcomes
        (env : Env) (tool_name : str) (params : json) (s : state)
        (Hcache : cache_from_list_tools (gaode_client s)) :
  let r := call_tool env tool_name params s in
  invocations (log_of r) = []
  /\ planning (state_of r) = planning s
  /\ match GaoDeMCPClient.session (gaode_client s),
           GaoDeMCPClient._tools (gaode_client s),
           session_list_tools env with
     | false, _, _ => r = ([], s, Raise NOT_CONNECTED)
     | true, [], Raise e =>
         log_of r = [SessionListTools] /\ outcome_of r = Raise e
         /\ state_of r = s
     | true, [], Ok [] =>
         log_of r = [SessionListTools]
         /\ outcome_of r = Raise (not_registered tool_name)
     | true, [], Ok (t :: ts) =>
         log_of r = [SessionListTools]
         /\ outcome_of r = Raise (Exn KeyError (utf8 "name"))
         /\ GaoDeMCPClient._tools (gaode_client (state_of r))
            = convert_tools_to_openai_params (t :: ts)
     | true, _ :: _, _ =>
         r = ([], s, Raise (Exn KeyError (utf8 "name")))
     end.
Proof.
  destruct s as [p [key sess cache] n]. destruct Hcache as [raw Hraw].
  simpl in Hraw. subst cache. cbv zeta. unfold call_tool.
  destruct sess.
  - destruct raw as [|t raw].
    + unfold list_tools, bind, get_client, put_client, emit, lift, ret, raise.
      simpl. destruct (session_list_tools env) as [[|t' raw']|e]; simpl;
        repeat split.
    + unfold bind, get_client, lift, ret, raise. simpl.
      destruct (session_list_tools env); repeat split.
  - unfold bind, get_client, raise. simpl.
    destruct (convert_tools_to_openai_params raw);
      destruct (session_list_tools env); repeat split.
Qed.

Lemma X6_call_tool_outcomes_witness :
  let r := call_tool Scenario.weather_round (utf8 "maps_weather")
                     Scenario.weather_params
                     (Scenario.connected [] (Planning.init Scenario.request)) in
  invocations (log_of r) = []
  /\ outcome_of r = Raise (Exn KeyError (utf8 "name")).
Proof.
  cbv zeta.
  assert (Hcache : cache_from_list_tools
                     (gaode_client
                        (Scenario.connected [] (Planning.init Scenario.request))))
    by (exists []; reflexivity).
  destruct (X6_call_tool_outcomes Scenario.weather_round (utf8 "maps_weather")
              Scenario.weather_params _ Hcache) as (Hinv & _ & Hcase).
  split; [exact Hinv|].
  simpl in Hcase. destruct Hcase as (_ & Hout & _). exact Hout.
Defined.

(** [connect] brackets its body: when opening fails the body is not run;
    otherwise the body runs with the session set, the log is the opening, the
    log of the body and the closing, on a normal end and on an exception
    alike, and the outcome is the one of the body. The session attribute is
    cleared after a normal end only: after an exception it is left as the
    body left it. *)
Theorem X7_connect_brackets_body
        (env : Env) {A : Type} (body : M A) (s : state) :
  let r := connect env body s in
  match session_open env with
  | Some e => log_of r = [SessionOpen] /\ outcome_of r = Raise e
  | None =>
      let b := body (opened s) in
      GaoDeMCPClient.session (gaode_client (opened s)) = true
      /\ log_of r = SessionOpen :: log_of b ++ [SessionClose]
      /\ outcome_of r = outcome_of b
      /\ planning (state_of r) = planning (state_of b)
      /\ GaoDeMCPClient._tools (gaode_client (state_of r))
         = GaoDeMCPClient._tools (gaode_client (state_of b))
      /\ GaoDeMCPClient.session (gaode_client (state_of r))
         = match outcome_of b with
           | Ok _ => false
           | Raise _ => GaoDeMCPClient.session (gaode_client (state_of b))
           end
  end.
Proof.
  cbv zeta. unfold connect. rewrite bind_unfold.
  cbn [emit outcome_of log_of state_of fst snd].
  destruct (session_open env) as [e|].
  - cbn [raise outcome_of log_of state_of fst snd]. split; reflexivity.
  - rewrite bind_unfold. cbn [get_client outcome_of log_of state_of fst snd].
    rewrite bind_unfold. cbn [put_client outcome_of log_of state_of fst snd].
    fold (opened s).
    destruct (body (opened s)) as [[log s'] [a|e]];
      cbn [outcome_of log_of state_of fst snd planning gaode_client
           GaoDeMCPClient._tools GaoDeMCPClient.session app];
      repeat split.
Qed.

(** ** Runs as a whole *)

Section Keeps.

Variable env : Env.
Variable I : state -> Prop.
Variable P : action -> bool.

Hypothesis P_yield : forall text, P (Yield text) = false.
Hypothesis P_chat : forall messages tools, P (ChatCreate messages tools) = false.
Hypothesis I_bump : forall s, I s -> I (bump s).
Hypothesis I_advance :
  forall s, I s ->
            I (with_planning s (fst (Planning.advance_step (planning s)))).
Hypothesis tools_keep : forall calls, keeps I P (handle_tool_calls env calls).

Lemma control_keeps : keeps I P (control env).
Proof.
  intros s Hs. rewrite control_unfold.
  destruct (snd (Planning.advance_step (planning s)));
    cbn [outcome_of log_of state_of fst snd].
  - split; [now apply I_advance | reflexivity].
  - split; [now apply I_bump|]. simpl. now rewrite P_yield, P_chat.
Qed.

Lemma after_reply_keeps (c : Choice) : keeps I P (after_reply env c).
Proof.
  intros s Hs. unfold after_reply. rewrite bind_unfold.
  assert (Hd : I (state_of (dispatch env c s))
               /\ List.filter P (log_of (dispatch env c s)) = []).
  { unfold dispatch. destruct (str_eqb _ _); [now apply tools_keep|].
    split; [exact Hs | reflexivity]. }
  destruct Hd as [Hd1 Hd2].
  destruct (outcome_of (dispatch env c s)) as [[]|e];
    cbn [outcome_of log_of state_of fst snd]; [|auto].
  destruct (control_keeps _ Hd1) as [Hc1 Hc2].
  split; [exact Hc1|]. now rewrite List.filter_app, Hd2, Hc2.
Qed.

Lemma round_keeps (tools : list json) : keeps I P (round env tools).
Proof.
  intros s Hs. rewrite round_unfold. cbv zeta.
  destruct (chat_create env _ _ _) as [e|response];
    cbn [outcome_of log_of state_of fst snd].
  - split; [now apply I_bump|]. simpl. now rewrite !P_yield, P_chat.
  - destruct (last response) as [c|];
      cbn [outcome_of log_of state_of fst snd].
    + destruct (after_reply_keeps c _ (I_bump s Hs)) as [Ha1 Ha2].
      split; [exact Ha1|].
      rewrite List.filter_app, Ha2. simpl. now rewrite !P_yield, P_chat.
    + split; [now apply I_bump|]. simpl. now rewrite !P_yield, P_chat.
Qed.

Lemma rounds_keeps (tools : list json) (n : nat) (final_answer : str) :
  keeps I P (rounds env tools n final_answer).
Proof.
  induction n as [|n IH]; intros s Hs; simpl.
  - split; [exact Hs | reflexivity].
  - rewrite bind_unfold. destruct (round_keeps tools s Hs) as [Hr1 Hr2].
    destruct (outcome_of (round env tools s)) as [[answer|]|e];
      cbn [ret outcome_of log_of state_of fst snd].
    + split; [exact Hr1|]. now rewrite app_nil_r.
    + destruct (IH _ Hr1) as [H1 H2].
      split; [exact H1|]. now rewrite List.filter_app, Hr2, H2.
    + auto.
Qed.

End Keeps.

(** The whole run, once the planning request has an answer. *)
Lemma run_shape (env : Env) (self : MCPAgent.t) (user_input : str)
      (plan_reply : ChatCompletion) (c0 : Choice) :
  chat_create env 0 (planning_request env (MCPAgent.tools self) user_input) None
  = inr plan_reply ->
  last plan_reply = Some c0 ->
  let p1 := Planning.set_plan_steps_from_text (Planning.init user_input)
                                              (content c0) in
  let s1 := with_planning (bump (MCPAgent.initial_state env user_input)) p1 in
  let R := rounds env (MCPAgent.tools self) max_rounds [] (opened s1) in
  let plan_log :=
    [ChatCreate (planning_request env (MCPAgent.tools self) user_input) None;
     Yield PLAN_HEADER; Yield (Planning.render p1); Yield SEPARATOR] in
  let r := MCPAgent.run env self user_input in
  match session_open env with
  | Some e => r = (plan_log ++ [SessionOpen], s1, Raise e)
  | None =>
      log_of r = plan_log ++ SessionOpen :: log_of R
                 ++ SessionClose :: final_events (outcome_of R)
      /\ outcome_of r = final_outcome (outcome_of R)
      /\ planning (state_of r) = planning (state_of R)
  end.
Proof.
  intros Hplan Hlast. cbv zeta.
  unfold MCPAgent.run, run_from, plan_and_loop.
  set (s0 := MCPAgent.initial_state env user_input).
  rewrite bind_unfold, bind_unfold.
  rewrite (planning_phase_unfold env _ user_input s0 plan_reply c0 Hplan Hlast).
  cbn [outcome_of log_of state_of fst snd].
  set (p1 := Planning.set_plan_steps_from_text (Planning.init user_input)
                                               (content c0)).
  set (s1 := with_planning (bump s0) p1).
  destruct (connect_unfold env (rounds env (MCPAgent.tools self) max_rounds []) s1)
    as (Hlog & Hout & Hst & Hfail).
  destruct (session_open env) as [e|].
  - rewrite Hout, Hlog, Hfail by discriminate.
    cbn [outcome_of log_of state_of fst snd]. reflexivity.
  - specialize (Hst eq_refl). rewrite Hout, Hlog.
    destruct (outcome_of (rounds env (MCPAgent.tools self) max_rounds []
                                 (opened s1))) as [final_answer|e];
      cbn [outcome_of log_of state_of fst snd final_events final_outcome].
    + unfold finish. destruct (truthy final_answer);
        cbn [negb emit raise outcome_of log_of state_of fst snd].
      * split; [|split; [reflexivity | exact Hst]].
        simpl. now rewrite <- !app_assoc.
      * split; [|split; [reflexivity | exact Hst]].
        simpl. now rewrite app_nil_r.
    + split; [|split; [reflexivity | exact Hst]]. simpl. reflexivity.
Qed.

(** The run when the planning request has no usable answer. *)
Lemma run_planning_failure (env : Env) (self : MCPAgent.t) (user_input : str) :
  let request := planning_request env (MCPAgent.tools self) user_input in
  let s0 := MCPAgent.initial_state env user_input in
  let r := MCPAgent.run env self user_input in
  match chat_create env 0 request None with
  | inl text =>
      r = ([ChatCreate request None], bump s0,
           Raise (Exn LLMInvokeError (utf8 "模型调用异常：" ++ text)))
  | inr plan_reply =>
      last plan_reply = None ->
      r = ([ChatCreate request None], bump s0,
           Raise (Exn IndexError (utf8 "list index out of range")))
  end.
Proof.
  cbv zeta. unfold MCPAgent.run, run_from, plan_and_loop, planning_phase.
  set (s0 := MCPAgent.initial_state env user_input).
  rewrite bind_unfold, bind_unfold, bind_unfold.
  cbn [put_planning outcome_of log_of state_of fst snd].
  rewrite bind_unfold, LLMClient_call_unfold.
  cbn [outcome_of log_of state_of fst snd chat_calls].
  change (chat_calls s0) with 0%nat.
  destruct (chat_create env 0 _ None) as [text|plan_reply].
  - reflexivity.
  - intros Hlast. rewrite bind_unfold. unfold last_choice. rewrite Hlast.
    reflexivity.
Qed.

(** When the planning request fails in transport, or its reply has no
    choice, the run ends at once with that error: the request is all it has
    done, no event is yielded and the tool session is never opened. *)
Theorem X8_planning_failure_ends_the_run
        (env : Env) (self : MCPAgent.t) (user_input : str) :
  let request := planning_request env (MCPAgent.tools self) user_input in
  let r := MCPAgent.run env self user_input in
  (forall text,
      chat_create env 0 request None = inl text ->
      log_of r = [ChatCreate request None]
      /\ events (log_of r) = []
      /\ outcome_of r
         = Raise (Exn LLMInvokeError (utf8 "模型调用异常：" ++ text)))
  /\ (forall plan_reply,
         chat_create env 0 request None = inr plan_reply ->
         last plan_reply = None ->
         log_of r = [ChatCreate request None]
         /\ events (log_of r) = []
         /\ outcome_of r
            = Raise (Exn IndexError (utf8 "list index out of range"))).
Proof.
  cbv zeta. pose proof (run_planning_failure env self user_input) as H.
  cbv zeta in H. split.
  - intros text Hfail. rewrite Hfail in H. rewrite H. repeat split.
  - intros plan_reply Hreply Hlast. rewrite Hreply in H.
    rewrite (H Hlast). repeat split.
Qed.

(** *** The session bracket *)





(** *** What the loop leaves alone *)

Section KeepsPlan.

(** A property of the state that looks at the plan only, and that adding an
    observation or advancing keeps. *)
Variable J : Planning.t -> Prop.
Hypothesis J_add_info : forall p info, J p -> J (Planning.add_info p info).
Hypothesis J_advance : forall p, J p -> J (fst (Planning.advance_step p)).

Let I (s : state) : Prop := J (planning s).
Let P (a : action) : bool := false.

Lemma keeps_plan_bind {A B} (m : M A) (k : A -> M B) :
  keeps I P m -> (forall a, keeps I P (k a)) -> keeps I P (bind m k).
Proof.
  intros Hm Hk s Hs. rewrite bind_unfold. destruct (Hm s Hs) as [H1 _].
  destruct (outcome_of (m s)) as [a|e];
    cbn [outcome_of log_of state_of fst snd].
  - destruct (Hk a _ H1) as [H2 _]. split; [exact H2|].
    unfold P. clear. induction (_ ++ _); simpl; auto.
  - split; [exact H1|]. unfold P. clear. induction (log_of _); simpl; auto.
Qed.

Lemma keeps_plan_same {A} (m : M A) :
  (forall s, planning (state_of (m s)) = planning s) -> keeps I P m.
Proof.
  intros H s Hs. unfold I. rewrite H. split; [exact Hs|].
  unfold P. clear. induction (log_of _); simpl; auto.
Qed.

Lemma call_tool_same_plan (env : Env) tool_name params (s : state) :
  planning (state_of (call_tool env tool_name params s)) = planning s.
Proof.
  destruct s as [p [key sess cache] n].
  unfold call_tool, list_tools, bind, get_client, put_client, emit, lift, ret,
    raise. simpl.
  destruct sess; simpl; [|reflexivity].
  destruct cache as [|c cache]; simpl.
  - destruct (session_list_tools env) as [raw|e]; simpl; [|reflexivity].
    destruct (registered_names _) as [names|e]; simpl; [|reflexivity].
    destruct (existsb _ names); simpl; [|reflexivity].
    destruct (session_call_tool env tool_name params); reflexivity.
  - destruct (match getitem c _ with Ok _ => _ | Raise e => _ end)
      as [names|e]; simpl; [|reflexivity].
    destruct (existsb _ names); simpl; [|reflexivity].
    destruct (session_call_tool env tool_name params); reflexivity.
Qed.

Lemma handle_tool_calls_keeps_plan (env : Env) (calls : list ToolCall) :
  keeps I P (handle_tool_calls env calls).
Proof.
  induction calls as [|c calls IH]; simpl.
  - apply keeps_plan_same. reflexivity.
  - apply keeps_plan_bind; [|intros _; exact IH].
    unfold handle_tool_call.
    apply keeps_plan_bind; [apply keeps_plan_same; reflexivity | intros _].
    apply keeps_plan_bind;
      [apply keeps_plan_same; intros s; unfold loads;
       destruct (json_loads env _); reflexivity | intros params].
    apply keeps_plan_bind;
      [apply keeps_plan_same; apply call_tool_same_plan | intros tool_wait].
    apply keeps_plan_bind;
      [apply keeps_plan_same; intros s; rewrite LLMClient_call_unfold;
       reflexivity | intros tool_result].
    apply keeps_plan_bind;
      [apply keeps_plan_same; intros s; unfold last_choice;
       destruct (last tool_result); reflexivity | intros choice].
    intros s Hs. unfold modify_planning, bind, get_planning, put_planning.
    split; [apply J_add_info; exact Hs | reflexivity].
Qed.

Lemma rounds_keep_plan (env : Env) (tools : list json) (n : nat)
      (final_answer : str) (s : state) :
  J (planning s) ->
  J (planning (state_of (rounds env tools n final_answer s))).
Proof.
  intros Hs.
  apply (rounds_keeps env I P); try (intros; reflexivity); try exact Hs.
  - intros s' Hs'. exact Hs'.
  - intros s' Hs'. apply J_advance. exact Hs'.
  - apply handle_tool_calls_keeps_plan.
Qed.

End KeepsPlan.

(** The loop never plans again: at the end of every run the requirement of
    the plan is the request of the user, and the steps are the ones parsed
    from the reply to the planning request, whatever the rounds did (none
    when that request had no usable answer). *)
Theorem X10_loop_never_replans
        (env : Env) (self : MCPAgent.t) (user_input : str) :
  let r := MCPAgent.run env self user_input in
  let p := planning (state_of r) in
  Planning.requirement p = user_input
  /\ match chat_create env 0
             (planning_request env (MCPAgent.tools self) user_input) None with
     | inr plan_reply =>
         match last plan_reply with
         | Some c0 => Planning.plan_steps p = Planning.parse_steps (content c0)
         | None => Planning.plan_steps p = []
         end
     | inl _ => Planning.plan_steps p = []
     end.
Proof.
  cbv zeta.
  pose proof (run_planning_failure env self user_input) as Hfail.
  cbv zeta in Hfail.
  destruct (chat_create env 0 _ None) as [text|plan_reply] eqn:Hplan.
  - rewrite Hfail. split; reflexivity.
  - destruct (last plan_reply) as [c0|] eqn:Hlast.
    + pose proof (run_shape env self user_input plan_reply c0 Hplan Hlast) as H.
      cbv zeta in H.
      destruct (session_open env) as [e|].
      * rewrite H. split; reflexivity.
      * destruct H as (_ & _ & ->).
        apply (rounds_keep_plan
                 (fun q => Planning.requirement q = user_input
                           /\ Planning.plan_steps q
                              = Planning.parse_steps (content c0))).
        -- intros q info Hq. exact Hq.
        -- intros q [Hq1 Hq2].
           destruct (advance_step_frame q) as (_ & H2 & H3).
           rewrite H2, H3. auto.
        -- split; reflexivity.
    + rewrite (Hfail eq_refl). split; reflexivity.
Qed.

(** *** Observations and invocations *)

Lemma handle_tool_calls_cache (env : Env) (tool_call : ToolCall)
      (rest : list ToolCall) (s : state) :
  cache_from_list_tools (gaode_client s) ->
  cache_from_list_tools
    (gaode_client (state_of (handle_tool_calls env (tool_call :: rest) s))).
Proof.
  intros Hcache. simpl handle_tool_calls. rewrite bind_unfold.
  destruct (handle_tool_call_cases env tool_call s Hcache) as ([e He] & _).
  rewrite He. cbn [outcome_of log_of state_of fst snd].
  unfold handle_tool_call.
  rewrite bind_unfold. cbn [emit outcome_of log_of state_of fst snd].
  rewrite bind_unfold. unfold loads.
  destruct (json_loads env (function_arguments tool_call)) as [params|].
  - cbn [ret outcome_of log_of state_of fst snd].
    rewrite bind_unfold.
    destruct (call_tool_cases env (function_name tool_call) params s Hcache)
      as ([e' He'] & _ & _ & _ & Hc).
    rewrite He'. exact Hc.
  - exact Hcache.
Qed.

Definition untouched (s : state) : Prop :=
  cache_from_list_tools (gaode_client s)
  /\ Planning.info_list (planning s) = [].

Lemma handle_tool_calls_untouched (env : Env) (calls : list ToolCall) :
  keeps untouched is_invocation (handle_tool_calls env calls).
Proof.
  intros s [Hcache Hinfo]. destruct calls as [|c rest].
  - split; [split; assumption | reflexivity].
  - destruct (handle_tool_calls_cases env c rest s Hcache)
      as (_ & _ & Hinv & Hp & _).
    split; [split|exact Hinv].
    + now apply handle_tool_calls_cache.
    + now rewrite Hp.
Qed.

(** As the code stands, no run ever invokes a tool or records an
    observation: whatever the model and the tool session answer, the log of
    the run has no invocation and the plan ends with an empty list of
    observations. *)
Theorem X11_no_run_invokes_a_tool
        (env : Env) (self : MCPAgent.t) (user_input : str) :
  let r := MCPAgent.run env self user_input in
  invocations (log_of r) = []
  /\ Planning.info_list (planning (state_of r)) = [].
Proof.
  cbv zeta.
  pose proof (run_planning_failure env self user_input) as Hfail.
  cbv zeta in Hfail.
  destruct (chat_create env 0 _ None) as [text|plan_reply] eqn:Hplan.
  - rewrite Hfail. split; reflexivity.
  - destruct (last plan_reply) as [c0|] eqn:Hlast.
    + pose proof (run_shape env self user_input plan_reply c0 Hplan Hlast) as H.
      cbv zeta in H.
      destruct (session_open env) as [e|].
      * rewrite H. split; reflexivity.
      * destruct H as (Hlog & _ & Hst). rewrite Hlog, Hst.
        match goal with
        | |- context [rounds env ?t ?n ?fa ?s] =>
            destruct (rounds_keeps env untouched is_invocation
                        (fun _ => eq_refl) (fun _ _ => eq_refl)
                        (fun s' Hs' => Hs')
                        (fun s' Hs' =>
                           conj (proj1 Hs')
                                (eq_trans
                                   (proj1 (advance_step_frame (planning s')))
                                   (proj2 Hs')))
                        (handle_tool_calls_untouched env) t n fa s)
              as [[_ Hinfo] Hinv]
        end.
        -- split; [exists []; reflexivity | reflexivity].
        -- split; [|exact Hinfo].
           unfold invocations. rewrite List.filter_app.
           cbn [List.filter is_invocation app].
           rewrite List.filter_app, Hinv.
           cbn [List.filter is_invocation app].
           unfold final_events. destruct (outcome_of _) as [a|e]; [|reflexivity].
           destruct (truthy a); reflexivity.
    + rewrite (Hfail eq_refl). split; reflexivity.
Qed.

(** *** The final answer *)



(** ** Validation of the model configuration *)

Lemma Qlt_bool_iff (x y : Q) : negb (Qle_bool y x) = true <-> (x < y)%Q.
Proof.
  rewrite negb_true_iff. split.
  - intros H. apply Qnot_le_lt. intros Hle.
    apply Qle_bool_iff in Hle. congruence.
  - intros H. destruct (Qle_bool y x) eqn:E; [|reflexivity].
    apply Qle_bool_iff in E. exfalso. exact (Qlt_not_le _ _ H E).
Qed.

Lemma temperature_in_range (x : option LLMModel.pyfloat) :
  LLMModel.out_of_range x (fun v => LLMModel.z_le 0 v && LLMModel.lt_z v 2)
  = false <-> LLMModel.within 0 false 2 true x.
Proof.
  destruct x as [[q| | |]|]; simpl; try (split; [discriminate | tauto]);
    [|tauto].
  rewrite negb_false_iff, andb_true_iff, Qle_bool_iff, Qlt_bool_iff. tauto.
Qed.

Lemma top_p_in_range (x : option LLMModel.pyfloat) :
  LLMModel.out_of_range x (fun v => LLMModel.z_lt 0 v && LLMModel.le_z v 1)
  = false <-> LLMModel.within 0 true 1 false x.
Proof.
  destruct x as [[q| | |]|]; simpl; try (split; [discriminate | tauto]);
    [|tauto].
  rewrite negb_false_iff, andb_true_iff, Qle_bool_iff, Qlt_bool_iff. tauto.
Qed.

Lemma presence_penalty_in_range (x : option LLMModel.pyfloat) :
  LLMModel.out_of_range x (fun v => LLMModel.z_le (-2) v && LLMModel.le_z v 2)
  = false <-> LLMModel.within (-2) false 2 false x.
Proof.
  destruct x as [[q| | |]|]; simpl; try (split; [discriminate | tauto]);
    [|tauto].
  rewrite negb_false_iff, andb_true_iff, !Qle_bool_iff. tauto.
Qed.

(** [validate_config] accepts a configuration exactly when each of the three
    parameters that is set lies in its range: temperature in [0, 2), top_p in
    (0, 1], presence_penalty in [-2, 2]; an infinity or a NaN is out of every
    range, and a parameter that is not set is not checked. A rejection names
    the first parameter out of range, in that order. The three predefined
    models pass, whatever the settings. *)
Theorem X13_validate_config_ranges (cfg : LLMModel.LLMModelConfig) :
  let t_ok := LLMModel.within 0 false 2 true (LLMModel.temperature cfg) in
  let p_ok := LLMModel.within 0 true 1 false (LLMModel.top_p cfg) in
  let pp_ok :=
    LLMModel.within (-2) false 2 false (LLMModel.presence_penalty cfg) in
  (LLMModel.validate_config cfg = Ok tt <-> t_ok /\ p_ok /\ pp_ok)
  /\ (~ t_ok -> LLMModel.validate_config cfg = Raise LLMModel.TEMPERATURE_RANGE)
  /\ (t_ok -> ~ p_ok ->
      LLMModel.validate_config cfg = Raise LLMModel.TOP_P_RANGE)
  /\ (t_ok -> p_ok -> ~ pp_ok ->
      LLMModel.validate_config cfg = Raise LLMModel.PRESENCE_PENALTY_RANGE)
  /\ (forall url key m,
         LLMModel.validate_config (LLMModel.value url key m) = Ok tt).
Proof.
  cbv zeta. unfold LLMModel.validate_config.
  pose proof (temperature_in_range (LLMModel.temperature cfg)) as Ht.
  pose proof (top_p_in_range (LLMModel.top_p cfg)) as Hp.
  pose proof (presence_penalty_in_range (LLMModel.presence_penalty cfg)) as Hpp.
  destruct (LLMModel.out_of_range (LLMModel.temperature cfg) _) eqn:E1;
    destruct (LLMModel.out_of_range (LLMModel.top_p cfg) _) eqn:E2;
    destruct (LLMModel.out_of_range (LLMModel.presence_penalty cfg) _) eqn:E3;
    clear E1 E2 E3;
    repeat match goal with
      | H : true = false <-> ?X |- _ =>
          assert (~ X) by (intros Hx; apply H in Hx; discriminate Hx); clear H
      | H : false = false <-> ?X |- _ =>
          assert X by (apply H; reflexivity); clear H
      end;
    (split; [split; [intros Hv; first [discriminate Hv | auto]
                    | intros (? & ? & ?); first [contradiction | reflexivity]]|]);
    (split; [intros ?; first [contradiction | reflexivity]|]);
    (split; [intros ? ?; first [contradiction | reflexivity]|]);
    (split; [intros ? ? ?; first [contradiction | reflexivity]|]);
    intros url key [| |]; vm_compute; reflexivity.
Qed.

(** ** The connection manager *)

Module ConnectionFacts.
Import ConnectionManager.

Definition keys {V} (d : list (str * V)) : list str := map fst d.

Lemma str_eqb_spec (a b : str) : reflect (a = b) (str_eqb a b).
Proof.
  unfold str_eqb. destruct (bool_decide (a = b)) eqn:E.
  - constructor. now apply bool_decide_eq_true in E.
  - constructor. now apply bool_decide_eq_false in E.
Qed.

Section Dict.
Context {V : Type}.
Implicit Types (d : list (str * V)) (k : str) (v : V).

Lemma get_None_keys d k : get d k = None <-> ~ In k (keys d).
Proof.
  induction d as [|[k0 v0] d IH]; simpl; [tauto|].
  destruct (str_eqb_spec k0 k) as [->|Hne].
  - split; [discriminate | intros H; exfalso; apply H; now left].
  - rewrite IH. split; [intros H [Heq|Hin]; auto | tauto].
Qed.

Lemma get_set_eq d k v : get (set d k v) k = Some v.
Proof.
  induction d as [|[k0 v0] d IH]; simpl.
  - destruct (str_eqb_spec k k); [reflexivity | congruence].
  - destruct (str_eqb_spec k0 k) as [->|Hne]; simpl.
    + destruct (str_eqb_spec k k); [reflexivity | congruence].
    + destruct (str_eqb_spec k0 k); [congruence | exact IH].
Qed.

Lemma get_set_ne d k k' v : k <> k' -> get (set d k v) k' = get d k'.
Proof.
  intros Hne. induction d as [|[k0 v0] d IH]; simpl.
  - destruct (str_eqb_spec k k'); [congruence | reflexivity].
  - destruct (str_eqb_spec k0 k) as [->|Hk]; simpl.
    + destruct (str_eqb_spec k k'); [congruence | reflexivity].
    + destruct (str_eqb_spec k0 k'); [reflexivity | exact IH].
Qed.

Lemma keys_set d k v :
  keys (set d k v)
  = match get d k with
    | Some _ => keys d
    | None => keys d ++ [k]
    end.
Proof.
  induction d as [|[k0 v0] d IH]; simpl; [reflexivity|].
  destruct (str_eqb_spec k0 k) as [->|Hk]; simpl; [reflexivity|].
  rewrite IH. destruct (get d k); reflexivity.
Qed.

Lemma keys_del_subset d k x : In x (keys (del d k)) -> In x (keys d).
Proof.
  induction d as [|[k0 v0] d IH]; simpl; [tauto|].
  destruct (str_eqb_spec k0 k); simpl; tauto.
Qed.

Lemma NoDup_keys_del d k : NoDup (keys d) -> NoDup (keys (del d k)).
Proof.
  induction d as [|[k0 v0] d IH]; simpl; [auto|].
  intros Hnd. inversion Hnd as [|? ? Hnot Hrest]; subst.
  destruct (str_eqb_spec k0 k); [exact Hrest|].
  simpl. constructor; [|auto].
  intros Hin%list_elem_of_In. apply Hnot. apply list_elem_of_In.
  eapply keys_del_subset. exact Hin.
Qed.

Lemma get_del_eq d k : NoDup (keys d) -> get (del d k) k = None.
Proof.
  induction d as [|[k0 v0] d IH]; simpl; [reflexivity|].
  intros Hnd. inversion Hnd as [|? ? Hnot Hrest]; subst.
  destruct (str_eqb_spec k0 k) as [->|Hk].
  - apply get_None_keys. intros Hin. apply Hnot. now apply list_elem_of_In.
  - simpl. destruct (str_eqb_spec k0 k); [congruence | auto].
Qed.

Lemma get_del_ne d k k' : k <> k' -> get (del d k) k' = get d k'.
Proof.
  intros Hne. induction d as [|[k0 v0] d IH]; simpl; [reflexivity|].
  destruct (str_eqb_spec k0 k) as [->|Hk]; simpl.
  - destruct (str_eqb_spec k k'); [congruence | reflexivity].
  - destruct (str_eqb_spec k0 k'); [reflexivity | exact IH].
Qed.

Lemma length_del d k w :
  get d k = Some w -> S (length (del d k)) = length d.
Proof.
  induction d as [|[k0 v0] d IH]; simpl; [discriminate|].
  destruct (str_eqb_spec k0 k); [reflexivity|].
  intros H. simpl. now rewrite IH.
Qed.

End Dict.

Definition unique_ids (self : t) : Prop :=
  NoDup (keys (active_connections self)).

(** Registering a client: when [accept] raises, nothing is stored and the
    exception goes on; otherwise the websocket is the one found under the
    client id afterwards, every other id keeps its websocket, and ids stay
    unique. An id that was already registered keeps its place and the number
    of connections: its earlier websocket is dropped from the registry
    without a word to it. *)
Theorem X14_connect_registers
        (io : Sockets) (self : t) (websocket : WebSocket) (client_id : str)
        (Hunique : unique_ids self) :
  let r := connect io self websocket client_id in
  let self' := snd (fst r) in
  fst (fst r) = [Accept websocket]
  /\ unique_ids self'
  /\ match accept io websocket with
     | Some e => snd r = Raise e /\ self' = self
     | None =>
         snd r = Ok tt
         /\ get (active_connections self') client_id = Some websocket
         /\ (forall other, other <> client_id ->
                           get (active_connections self') other
                           = get (active_connections self) other)
         /\ match get (active_connections self) client_id with
            | Some _ =>
                keys (active_connections self') = keys (active_connections self)
            | None =>
                keys (active_connections self')
                = keys (active_connections self) ++ [client_id]
            end
     end.
Proof.
  cbv zeta. unfold connect, unique_ids in *.
  destruct (accept io websocket) as [e|]; simpl; [auto|].
  pose proof (keys_set (active_connections self) client_id websocket) as Hk.
  split; [reflexivity|]. split.
  - rewrite Hk. destruct (get (active_connections self) client_id) eqn:Hg;
      [exact Hunique|].
    apply NoDup_app. split; [exact Hunique|]. split.
    + intros x Hx. apply get_None_keys in Hg.
      intros Hin%list_elem_of_In. simpl in Hin.
      destruct Hin as [->|[]]. apply Hg. now apply list_elem_of_In.
    + apply NoDup_singleton.
  - split; [reflexivity|]. split; [apply get_set_eq|].
    split; [intros other Hne; apply get_set_ne; congruence|].
    rewrite Hk. destruct (get (active_connections self) client_id); reflexivity.
Qed.

Lemma X14_connect_witness :
  let io := {| accept := fun _ => None; send_text := fun _ _ => None |} in
  let self' := snd (fst (connect io init 7%nat (utf8 "a"))) in
  unique_ids self'
  /\ get (active_connections self') (utf8 "a") = Some 7%nat.
Proof.
  cbv zeta.
  assert (Hunique : unique_ids init) by (unfold unique_ids; simpl; constructor).
  destruct (X14_connect_registers
              {| accept := fun _ => None; send_text := fun _ _ => None |}
              init 7%nat (utf8 "a") Hunique) as (_ & Hu & Hcase).
  split; [exact Hu|]. simpl in Hcase.
  destruct Hcase as (_ & Hget & _). exact Hget.
Defined.

(** Removing a client: afterwards nothing is found under its id and a
    personal message to it sends nothing, every other id keeps its websocket,
    and ids stay unique; one connection less when the id was registered, and
    no change at all, and no error, when it was not, so that removing twice is
    the same as removing once. *)
Theorem X15_disconnect_forgets
        (self : t) (client_id : str) (Hunique : unique_ids self) :
  let self' := disconnect self client_id in
  get (active_connections self') client_id = None
  /\ (forall other, other <> client_id ->
                    get (active_connections self') other
                    = get (active_connections self) other)
  /\ unique_ids self'
  /\ (forall websocket,
         get (active_connections self) client_id = Some websocket ->
         S (length (active_connections self'))
         = length (active_connections self))
  /\ (get (active_connections self) client_id = None -> self' = self)
  /\ disconnect self' client_id = self'
  /\ (forall io message,
         send_personal_message io self' message client_id = ([], Ok tt)).
Proof.
  cbv zeta. unfold unique_ids in *.
  assert (Hgone : get (active_connections (disconnect self client_id)) client_id
                  = None).
  { unfold disconnect.
    destruct (get (active_connections self) client_id) eqn:Hg; simpl;
      [now apply get_del_eq | exact Hg]. }
  split; [exact Hgone|]. split; [|split; [|split; [|split; [|split]]]].
  - intros other Hne. unfold disconnect.
    destruct (get (active_connections self) client_id); simpl; [|reflexivity].
    apply get_del_ne. congruence.
  - unfold disconnect.
    destruct (get (active_connections self) client_id); simpl;
      [now apply NoDup_keys_del | exact Hunique].
  - intros websocket Hg. unfold disconnect. rewrite Hg. simpl.
    now apply (length_del _ _ websocket).
  - intros Hg. unfold disconnect. now rewrite Hg.
  - unfold disconnect at 1. now rewrite Hgone.
  - intros io message. unfold send_personal_message. now rewrite Hgone.
Qed.

Lemma X15_disconnect_witness :
  let self := mk [(utf8 "a", 1%nat); (utf8 "b", 2%nat)] in
  get (active_connections (disconnect self (utf8 "a"))) (utf8 "a") = None
  /\ get (active_connections (disconnect self (utf8 "a"))) (utf8 "b")
     = Some 2%nat.
Proof.
  cbv zeta.
  assert (Hunique : unique_ids (mk [(utf8 "a", 1%nat); (utf8 "b", 2%nat)])).
  { unfold unique_ids. simpl. repeat constructor.
    - intros Hin%list_elem_of_In. simpl in Hin.
      destruct Hin as [Heq|[]]. vm_compute in Heq. discriminate Heq.
    - intros Hin%list_elem_of_In. destruct Hin. }
  destruct (X15_disconnect_forgets _ (utf8 "a") Hunique) as (Hgone & _).
  split; [exact Hgone | reflexivity].
Defined.

Lemma broadcast_to_all (io : Sockets) (connections : list WebSocket)
      (message : str) :
  (forall w, In w connections -> send_text io w message = None) ->
  broadcast_to io connections message
  = (map (fun w => SendText w message) connections, Ok tt).
Proof.
  induction connections as [|w ws IH]; intros Hok; simpl; [reflexivity|].
  rewrite (Hok w) by now left.
  rewrite IH by (intros x Hx; apply Hok; now right). reflexivity.
Qed.

Lemma broadcast_to_stops (io : Sockets) (before : list WebSocket)
      (w : WebSocket) (after : list WebSocket) (message : str) (e : exn) :
  (forall x, In x before -> send_text io x message = None) ->
  send_text io w message = Some e ->
  broadcast_to io (before ++ w :: after) message
  = (map (fun x => SendText x message) (before ++ [w]), Raise e).
Proof.
  induction before as [|b before IH]; intros Hok Hfail; simpl.
  - now rewrite Hfail.
  - rewrite (Hok b) by now left.
    rewrite IH; [reflexivity | | exact Hfail].
    intros x Hx. apply Hok. now right.
Qed.

(** A broadcast sends the message once to each registered websocket, in the
    order of registration, as long as the sends succeed; the first send that
    raises ends it, so that the connections registered later get nothing.
    A personal message goes to the websocket found under the id, and to
    nobody, without an error, when the id is not registered. *)
Theorem X16_broadcast_reaches_connections_in_order
        (io : Sockets) (self : t) (message : str) :
  let receivers := map snd (active_connections self) in
  ((forall w, In w receivers -> send_text io w message = None) ->
   broadcast io self message
   = (map (fun w => SendText w message) receivers, Ok tt)
   /\ length (fst (broadcast io self message))
      = length (active_connections self))
  /\ (forall before w after e,
         receivers = before ++ w :: after ->
         (forall x, In x before -> send_text io x message = None) ->
         send_text io w message = Some e ->
         broadcast io self message
         = (map (fun x => SendText x message) (before ++ [w]), Raise e))
  /\ (forall client_id,
         match get (active_connections self) client_id with
         | Some w =>
             fst (send_personal_message io self message client_id)
             = [SendText w message]
         | None =>
             send_personal_message io self message client_id = ([], Ok tt)
         end).
Proof.
  cbv zeta. unfold broadcast. split; [|split].
  - intros Hok. rewrite broadcast_to_all by exact Hok.
    split; [reflexivity|]. simpl. now rewrite !length_map.
  - intros before w after e -> Hok Hfail. now apply broadcast_to_stops.
  - intros client_id. unfold send_personal_message.
    destruct (get (active_connections self) client_id); reflexivity.
Qed.

End ConnectionFacts.

(** ** The echo endpoints *)

Lemma serve_sent (answer : str -> str) (prefix : str)
      (send : str -> option Websocket.failure)
      (script : list Websocket.received) :
  (forall text, send text = None) ->
  Websocket.sent (Websocket.serve answer prefix send script)
  = map answer (Websocket.texts script)
  /\ Websocket.closes (Websocket.serve answer prefix send script)
     = match drop (length (Websocket.texts script)) script with
       | Websocket.Fails (Websocket.Broken _) :: _ => [1011%Z]
       | _ => []
       end.
Proof.
  intros Hsend. induction script as [|[data|[|e]] script [IH1 IH2]]; simpl;
    try (split; reflexivity).
  rewrite Hsend. simpl. rewrite IH1, IH2. split; reflexivity.
Qed.

(** The echo endpoint answers every message it receives, in order, one
    answer each, for as long as the client stays: a text of more than 1024
    characters gets the "too long" notice and any other text comes back
    behind "Message text was: ", and a text that is too long does not end the
    connection. The server closes the connection, with code 1011, only after
    an exception other than the disconnection of the client. The test
    endpoint echoes texts of any length. *)
Theorem X17_echo_answers_every_message
        (send : str -> option Websocket.failure)
        (script : list Websocket.received)
        (Hsend : forall text, send text = None) :
  let log := Websocket.websocket_endpoint None send script in
  Websocket.sent log = map Websocket.reply (Websocket.texts script)
  /\ length (Websocket.sent log) = length (Websocket.texts script)
  /\ (forall data,
         ((1024 < length data)%nat ->
          Websocket.reply data = Websocket.TOO_LONG)
         /\ ((length data <= 1024)%nat ->
             Websocket.reply data = utf8 "Message text was: " ++ data))
  /\ Websocket.closes log
     = match drop (length (Websocket.texts script)) script with
       | Websocket.Fails (Websocket.Broken _) :: _ => [1011%Z]
       | _ => []
       end
  /\ Websocket.sent (Websocket.websocket_test_endpoint None send script)
     = map (fun data => utf8 "[测试回显] Message text was: " ++ data)
           (Websocket.texts script).
Proof.
  cbv zeta. unfold Websocket.websocket_endpoint,
    Websocket.websocket_test_endpoint.
  destruct (serve_sent Websocket.reply (utf8 "WebSocket错误: ") send script Hsend)
    as [H1 H2].
  destruct (serve_sent Websocket.test_reply (utf8 "[测试] WebSocket错误: ")
                       send script Hsend) as [H3 _].
  change (Websocket.sent (Websocket.WsAccept :: ?l)) with (Websocket.sent l).
  change (Websocket.closes (Websocket.WsAccept :: ?l))
    with (Websocket.closes l).
  rewrite H1, H2, H3.
  split; [reflexivity|]. split; [apply length_map|].
  split; [|split; reflexivity].
  - intros data. unfold Websocket.reply, Websocket.MESSAGE_LIMIT. split.
    + intros H. destruct (Nat.ltb_spec 1024 (length data)); [reflexivity | lia].
    + intros H. destruct (Nat.ltb_spec 1024 (length data)); [lia | reflexivity].
Qed.

Lemma X17_echo_witness :
  Websocket.sent
    (Websocket.websocket_endpoint None (fun _ => None)
       [Websocket.Text (utf8 "你好"); Websocket.Fails Websocket.Gone])
  = [utf8 "Message text was: 你好"].
Proof.
  refine (eq_trans
            (proj1 (X17_echo_answers_every_message (fun _ => None)
                      [Websocket.Text (utf8 "你好");
                       Websocket.Fails Websocket.Gone]
                      (fun _ => eq_refl))) _).
  vm_compute. reflexivity.
Defined.

(** ** Arguments that do not parse *)


